(** * NFe SEFAZ sync: domain entities, list handler, sync orchestration

    A shallow embedding of the Go sources of the repository:
    - [internal/domain/nfe.go]      (module [Domain]),
    - [internal/handler/nfe_handler.go] (module [Handler]),
    together with models, written from the specification, of the service
    and repository layers whose sources are not part of the tree
    (modules [Repository] and [Service]).

    Go's [int] and [int64] are 64-bit two's complement integers: they are
    embedded as [Z] with the wrap-around written out ([wrap64]).  Go's
    [float64] is embedded as Rocq's primitive binary64 floats. *)

From Stdlib Require Import ZArith Floats Ascii String List DecimalString.
From stdpp Require Import base tactics option list sorting gmap strings.

Local Open Scope string_scope.
Local Open Scope Z_scope.

(** ** Machine integers *)

Module GoInt.

Definition MinInt : Z := - 2 ^ 63.
Definition MaxInt : Z := 2 ^ 63 - 1.

(** The value a 64-bit signed register holds after an arithmetic
    operation whose mathematical result is [z]. *)
Definition wrap64 (z : Z) : Z := (z + 2 ^ 63) mod 2 ^ 64 - 2 ^ 63.

Definition in_range (z : Z) : Prop := MinInt <= z <= MaxInt.

Definition sub (a b : Z) : Z := wrap64 (a - b).
Definition mul (a b : Z) : Z := wrap64 (a * b).
End GoInt.

(** ** Calendar time

    [time.Time] values are only constructed, compared and asked for their
    year and month.  A value is kept by its civil fields; [unix_key] is an
    order-preserving integer key on well-formed values. *)

Record GoTime : Type := MkTime {
  t_year : Z;
  t_month : Z;   (* 1..12 *)
  t_day : Z;     (* 1..31 *)
  t_secs : Z     (* seconds since midnight, 0..86399 *)
}.

Definition unix_key (t : GoTime) : Z :=
  ((t_year t * 12 + (t_month t - 1)) * 31 + (t_day t - 1)) * 86400 + t_secs t.

Definition civil_date (y m d : Z) : GoTime := MkTime y m d 0.

(** ** Money

    The column [nfes.valor_total] is [DECIMAL(15, 2)]: an amount is a
    whole number of cents below [10 ^ 15].  The Go structs hold it in a
    [float64]. *)

Module Money.

(** The [float64] nearest to [cents / 100], as scanning the decimal
    column into a [float64] yields it: both operands are below [2 ^ 53]
    and hence exact, and binary64 division rounds to nearest. *)
Definition float_of_cents (cents : Z) : float :=
  let m := PrimFloat.of_uint63 (Uint63.of_Z (Z.abs cents)) in
  let q := PrimFloat.div m (PrimFloat.of_uint63 (Uint63.of_Z 100)) in
  if cents <? 0 then PrimFloat.opp q else q.

(** Whether the real number a [float64] denotes is exactly
    [cents / 100]. *)
Definition exact_cents (f : float) (cents : Z) : bool :=
  match Prim2SF f with
  | S754_zero _ => cents =? 0
  | S754_finite s m e =>
      let v := if s then Z.neg m else Z.pos m in
      if 0 <=? e then v * 2 ^ e * 100 =? cents
      else v * 100 =? cents * 2 ^ (- e)
  | _ => false
  end.

End Money.

(** ** internal/domain/nfe.go *)

Module Domain.

Definition NFeStatus : Type := string.

Definition NFeStatusAutorizada : NFeStatus := "autorizada".
Definition NFeStatusCancelada : NFeStatus := "cancelada".
Definition NFeStatusDenegada : NFeStatus := "denegada".
Definition NFeStatusRejeitada : NFeStatus := "rejeitada".
Definition NFeStatusProcessando : NFeStatus := "processando".

(** [func (s NFeStatus) IsValid() bool] *)
Definition IsValid (s : NFeStatus) : bool :=
  if String.eqb s NFeStatusAutorizada then true
  else if String.eqb s NFeStatusCancelada then true
  else if String.eqb s NFeStatusDenegada then true
  else if String.eqb s NFeStatusRejeitada then true
  else if String.eqb s NFeStatusProcessando then true
  else false.

Definition recognized : list NFeStatus :=
  [NFeStatusAutorizada; NFeStatusCancelada; NFeStatusDenegada;
   NFeStatusRejeitada; NFeStatusProcessando].

(** Modelled from the spec: the sentinel errors of [internal/domain/errors.go],
    a file that is not among the sources; the code only compares them by
    identity. *)
Inductive DomainError : Type :=
| ErrInvalidStatus
| ErrNFeNotFound.

Record NFe : Type := MkNFe {
  ID : N;                      (* uuid.UUID, a 128-bit value *)
  ChaveAcesso : string;
  Numero : string;
  Serie : string;
  CNPJEmitente : string;
  NomeEmitente : string;
  DataEmissao : GoTime;
  ValorTotal : float;
  XMLPath : string;
  Status : NFeStatus;
  DataCancelamento : option GoTime;
  MotivoCancelamento : string;
  CreatedAt : GoTime;
  UpdatedAt : GoTime
}.

Record NFeFilter : Type := MkFilter {
  fCNPJEmitente : string;
  fStatus : NFeStatus;
  StartDate : option GoTime;
  EndDate : option GoTime;
  Page : Z;
  Limit : Z
}.

Definition set_Page (f : NFeFilter) (p : Z) : NFeFilter :=
  MkFilter (fCNPJEmitente f) (fStatus f) (StartDate f) (EndDate f) p (Limit f).
Definition set_Limit (f : NFeFilter) (l : Z) : NFeFilter :=
  MkFilter (fCNPJEmitente f) (fStatus f) (StartDate f) (EndDate f) (Page f) l.
Definition set_StartDate (f : NFeFilter) (d : option GoTime) : NFeFilter :=
  MkFilter (fCNPJEmitente f) (fStatus f) d (EndDate f) (Page f) (Limit f).
Definition set_EndDate (f : NFeFilter) (d : option GoTime) : NFeFilter :=
  MkFilter (fCNPJEmitente f) (fStatus f) (StartDate f) d (Page f) (Limit f).

(** [func (f *NFeFilter) Validate() error]: the receiver is mutated in
    place, so the embedding returns the filter after the call together
    with the error ([None] is Go's [nil]). *)
Definition Validate (f : NFeFilter) : NFeFilter * option DomainError :=
  let f1 := if Page f <? 1 then set_Page f 1 else f in
  let f2 := if (Limit f1 <? 1) || (100 <? Limit f1) then set_Limit f1 20 else f1 in
  if negb (String.eqb (fStatus f2) "") && negb (IsValid (fStatus f2))
  then (f2, Some ErrInvalidStatus)
  else (f2, None).

(** [func (f *NFeFilter) GetOffset() int] *)
Definition GetOffset (f : NFeFilter) : Z :=
  GoInt.mul (GoInt.sub (Page f) 1) (Limit f).

Inductive SyncJobStatus : Type :=
| SyncJobStatusRunning
| SyncJobStatusCompleted
| SyncJobStatusFailed.

Record SyncJob : Type := MkSyncJob {
  jID : N;
  jStatus : SyncJobStatus;
  StartedAt : GoTime;
  EndedAt : option GoTime;
  NFesFound : Z;
  NFesError : Z;
  jError : string
}.

Record Periodo : Type := MkPeriodo {
  Inicio : GoTime;
  Fim : GoTime
}.

Record NFeStats : Type := MkNFeStats {
  TotalNFes : Z;
  sValorTotal : float;
  sPeriodo : Periodo;
  PorStatus : gmap string Z
}.

Record Pagination : Type := MkPagination {
  pgPage : Z;
  pgLimit : Z;
  pgTotal : Z
}.

Record NFePaginatedResponse : Type := MkResponse {
  Data : list NFe;
  Pag : Pagination
}.

End Domain.

(** ** Go standard library functions the handler calls

    [strconv.Atoi] and [time.Parse] belong to Go's standard library, not
    to the repository; they are embedded from their documented behaviour
    on a 64-bit platform. *)

Module GoStd.

Definition is_digit (c : ascii) : bool :=
  let n := N_of_ascii c in (48 <=? n)%N && (n <=? 57)%N.

Definition digit_value (c : ascii) : Z := Z.of_N (N_of_ascii c) - 48.

Fixpoint digits_value (s : string) (acc : Z) : option Z :=
  match s with
  | EmptyString => Some acc
  | String c rest =>
      if is_digit c then digits_value rest (acc * 10 + digit_value c) else None
  end.

(** [strconv.Atoi]: an optional sign, then one or more decimal digits;
    [None] stands for a non-nil error (syntax or out of range). *)
Definition Atoi (s : string) : option Z :=
  let '(neg, body) :=
    match s with
    | String "+"%char rest => (false, rest)
    | String "-"%char rest => (true, rest)
    | _ => (false, s)
    end in
  match body with
  | EmptyString => None
  | _ =>
      match digits_value body 0 with
      | Some n =>
          let v := if neg then - n else n in
          if (GoInt.MinInt <=? v) && (v <=? GoInt.MaxInt) then Some v else None
      | None => None
      end
  end.

Definition is_leap (y : Z) : bool :=
  (y mod 4 =? 0) && (negb (y mod 100 =? 0) || (y mod 400 =? 0)).

Definition days_in (m y : Z) : Z :=
  if m =? 2 then (if is_leap y then 29 else 28)
  else if (m =? 4) || (m =? 6) || (m =? 9) || (m =? 11) then 30
  else 31.

(** [time.Parse("2006-01-02", s)]: exactly four year digits, a dash, two
    month digits, a dash, two day digits, the month in 1..12 and the
    day within the month; [None] stands for a non-nil error. *)
Definition ParseDate (s : string) : option GoTime :=
  match s with
  | String y1 (String y2 (String y3 (String y4 (String "-"%char
    (String m1 (String m2 (String "-"%char
    (String d1 (String d2 EmptyString))))))))) =>
      if forallb is_digit [y1; y2; y3; y4; m1; m2; d1; d2] then
        let y := ((digit_value y1 * 10 + digit_value y2) * 10 + digit_value y3) * 10
                 + digit_value y4 in
        let m := digit_value m1 * 10 + digit_value m2 in
        let d := digit_value d1 * 10 + digit_value d2 in
        if (1 <=? m) && (m <=? 12) && (1 <=? d) && (d <=? days_in m y)
        then Some (civil_date y m d) else None
      else None
  | _ => None
  end.

(** [url.Values] is [map[string][]string]; [Get] returns the first value
    of the key, or the empty string. *)
Definition Get (q : gmap string (list string)) (key : string) : string :=
  match q !! key with
  | Some (v :: _) => v
  | _ => ""
  end.

End GoStd.

(** ** internal/handler/nfe_handler.go *)

Module Handler.
Import Domain GoStd.

(** The filter [ListNFes] builds from the query string before it calls
    the service (lines 80-111 of the handler). *)
Definition parseFilter (q : gmap string (list string)) : NFeFilter :=
  let filter := MkFilter (Get q "cnpj_emitente") (Get q "status") None None 0 0 in
  let filter :=
    let pageStr := Get q "page" in
    if negb (String.eqb pageStr "") then
      match Atoi pageStr with
      | Some page => set_Page filter page
      | None => filter
      end
    else filter in
  let filter :=
    let limitStr := Get q "limit" in
    if negb (String.eqb limitStr "") then
      match Atoi limitStr with
      | Some limit => set_Limit filter limit
      | None => filter
      end
    else filter in
  let filter :=
    let startDateStr := Get q "start_date" in
    if negb (String.eqb startDateStr "") then
      match ParseDate startDateStr with
      | Some startDate => set_StartDate filter (Some startDate)
      | None => filter
      end
    else filter in
  let filter :=
    let endDateStr := Get q "end_date" in
    if negb (String.eqb endDateStr "") then
      match ParseDate endDateStr with
      | Some endDate => set_EndDate filter (Some endDate)
      | None => filter
      end
    else filter in
  filter.

Inductive HttpResponse : Type :=
| RespOK (body : NFePaginatedResponse)          (* 200 *)
| RespInternalServerError (message : string).   (* 500 *)

(** [func (h *NFeHandler) ListNFes]: the service is the
    [domain.NFeService] interface value held by the handler. *)
Definition ListNFes {E : Type}
    (service : NFeFilter -> E + NFePaginatedResponse)
    (q : gmap string (list string)) : HttpResponse :=
  match service (parseFilter q) with
  | inl _ => RespInternalServerError "Erro ao listar NFes"
  | inr response => RespOK response
  end.

End Handler.

(** ** Document Store (internal/repository/nfe_repository.go) *)

Module Repository.
Import Domain.

Definition Bytes : Type := list Byte.byte.

(** Modelled from the spec: the Document Store of section 6, whose
    implementation ([nfe_repository.go]) is not among the sources.  The
    table [nfes] has a unique key [chave_acesso], so its contents are a
    finite map from access key to record. *)
Definition exists_key (key : string) (docs : gmap string NFe) : bool :=
  bool_decide (is_Some (docs !! key)).

(** Modelled from the spec: the three outcomes of [insert(document)]. *)
Inductive InsertResult : Type :=
| Inserted (docs' : gmap string NFe)
| DuplicateKey
| StorageFailure.

(** Modelled from the spec: [insert(document)] fails with a duplicate-key
    condition if the key exists; [io_ok] tells whether the storage
    driver accepts the write otherwise. *)
Definition insert_doc (io_ok : bool) (d : NFe) (docs : gmap string NFe)
  : InsertResult :=
  if exists_key (ChaveAcesso d) docs then DuplicateKey
  else if io_ok then Inserted (<[ChaveAcesso d := d]> docs)
  else StorageFailure.

(** Modelled from the spec: [findByKey] fails with a not-found condition. *)
Definition FindByChaveAcesso (key : string) (docs : gmap string NFe)
  : DomainError + NFe :=
  match docs !! key with
  | Some d => inr d
  | None => inl ErrNFeNotFound
  end.

(** Modelled from the spec: the order of the List operation, issuance
    timestamp descending (most recent first). *)
Definition newer_first (a b : NFe) : Prop :=
  unix_key (DataEmissao b) <= unix_key (DataEmissao a).

#[global] Instance newer_first_dec : RelDecision newer_first :=
  fun a b => Z_le_dec (unix_key (DataEmissao b)) (unix_key (DataEmissao a)).

(** Modelled from the spec: the predicate of the List operation, built
    from issuer tax ID (exact match), status (exact match) and the
    inclusive date range on the issuance timestamp; an absent criterion
    does not restrict. *)
Definition matches (f : NFeFilter) (d : NFe) : bool :=
  (String.eqb (fCNPJEmitente f) "" || String.eqb (CNPJEmitente d) (fCNPJEmitente f))
  && (String.eqb (fStatus f) "" || String.eqb (Status d) (fStatus f))
  && match StartDate f with
     | Some s => unix_key s <=? unix_key (DataEmissao d)
     | None => true
     end
  && match EndDate f with
     | Some e => unix_key (DataEmissao d) <=? unix_key e
     | None => true
     end.

(** Modelled from the spec: the stored documents the predicate selects. *)
Definition matching (f : NFeFilter) (docs : gmap string NFe) : list NFe :=
  filter (fun d => matches f d = true) ((map_to_list docs).*2).

(** Modelled from the spec: [findByFilter(filter) -> (documents,
    totalCount)]: the matching documents ordered by issuance timestamp
    descending, cut to the page at [GetOffset], and the count of all
    matching documents. *)
Definition FindByFilter (f : NFeFilter) (docs : gmap string NFe)
  : list NFe * Z :=
  let all := matching f docs in
  let ordered := merge_sort newer_first all in
  (take (Z.to_nat (Limit f)) (drop (Z.to_nat (GetOffset f)) ordered),
   Z.of_nat (length all)).

End Repository.

(** ** Artifact paths, sync orchestration and list service
       (internal/service/nfe_service.go) *)

Module Service.
Import Domain Repository.

Definition decimal (z : Z) : string :=
  DecimalString.NilZero.string_of_int (Z.to_int z).

(** Modelled from the spec: the artifact path
    [{year}/{month}/{accessKey}.xml] of section 3; [nfe_service.go] is
    not among the sources. *)
Definition artifactPath (issued : GoTime) (key : string) : string :=
  decimal (t_year issued) ++ "/" ++ decimal (t_month issued) ++ "/" ++ key ++ ".xml".

Fixpoint has_slash (s : string) : bool :=
  match s with
  | EmptyString => false
  | String c rest => Ascii.eqb c "/" || has_slash rest
  end.

(** The text before the last slash of a path, and the text after it. *)
Fixpoint dirname (s : string) : string :=
  match s with
  | EmptyString => EmptyString
  | String c rest => if has_slash rest then String c (dirname rest) else EmptyString
  end.

Fixpoint basename (s : string) : string :=
  match s with
  | EmptyString => EmptyString
  | String c rest =>
      if has_slash rest then basename rest
      else if Ascii.eqb c "/" then rest else s
  end.

(** Modelled from the spec: the two failures of the Authority Client
    (section 6: a transport/protocol error) and their summary text. *)
Inductive AuthorityError : Type :=
| TransportError (detail : string)
| ProtocolError (detail : string).

Definition summarize (e : AuthorityError) : string :=
  match e with
  | TransportError d => "transport error: " ++ d
  | ProtocolError d => "protocol error: " ++ d
  end.

(** Modelled from the spec: what the external collaborators answer
    during one run.  The Authority Client's two operations, the fields
    read off a fetched artifact, the I/O conditions of the two stores,
    the clock and the run identifier. *)
Record Collaborators : Type := MkCollaborators {
  enumerate : string -> option (GoTime * GoTime) -> AuthorityError + list string;
  fetchArtifact : string -> AuthorityError + Bytes;
  describe : string -> Bytes -> NFe;
  artifact_io_ok : string -> bool;
  document_io_ok : string -> bool;
  run_id : N;
  clock_start : GoTime;
  clock_end : GoTime
}.

(** Modelled from the spec: the calls of section 6 that reach a
    collaborator during a run, most recent first. *)
Inductive Call : Type :=
| CallEnumerate
| CallExists (key : string)
| CallFetch (key : string)
| CallWriteArtifact (path : string)
| CallInsert (key : string).

(** Modelled from the spec: the Document Store, the Artifact Store and
    the calls issued so far. *)
Record World : Type := MkWorld {
  docs : gmap string NFe;
  artifacts : gmap string Bytes;
  calls : list Call
}.

Definition log (c : Call) (w : World) : World :=
  MkWorld (docs w) (artifacts w) (c :: calls w).

(** Modelled from the spec: the Artifact Store is append-only by path; a
    path already written is skipped, not replaced. *)
Definition writeArtifact (io_ok : bool) (path : string) (b : Bytes) (w : World)
  : option World :=
  let w := log (CallWriteArtifact path) w in
  match artifacts w !! path with
  | Some _ => Some w
  | None =>
      if io_ok then Some (MkWorld (docs w) (<[path := b]> (artifacts w)) (calls w))
      else None
  end.

(** Modelled from the spec: what step 3 does with one candidate: skipped
    (on file), stored (counted as found) or failed (counted as error). *)
Inductive Outcome : Type := Skipped | Stored | Errored.

(** Modelled from the spec: the record persisted for a new key, status
    [authorized], created-at and updated-at set on first persistence. *)
Definition newDocument (c : Collaborators) (key : string) (b : Bytes) : NFe :=
  let d := describe c key b in
  MkNFe (ID d) key (Numero d) (Serie d) (CNPJEmitente d) (NomeEmitente d)
    (DataEmissao d) (ValorTotal d) (artifactPath (DataEmissao d) key)
    NFeStatusAutorizada None "" (clock_start c) (clock_start c).

(** Modelled from the spec: step 3 of the algorithm of section 4.1, for
    one candidate key. *)
Definition processCandidate (c : Collaborators) (key : string) (w : World)
  : World * Outcome :=
  let w := log (CallExists key) w in
  if exists_key key (docs w) then (w, Skipped)
  else
    let w := log (CallFetch key) w in
    match fetchArtifact c key with
    | inl _ => (w, Errored)
    | inr b =>
        let d := newDocument c key b in
        match writeArtifact (artifact_io_ok c (XMLPath d)) (XMLPath d) b w with
        | None => (log (CallWriteArtifact (XMLPath d)) w, Errored)
        | Some w =>
            let w := log (CallInsert key) w in
            match insert_doc (document_io_ok c key) d (docs w) with
            | Inserted docs' => (MkWorld docs' (artifacts w) (calls w), Stored)
            | DuplicateKey => (w, Skipped)
            | StorageFailure => (w, Errored)
            end
        end
    end.

(** Modelled from the spec: the fold over the candidates of section 9,
    threading the stores and the found and error counters; one increment
    per candidate keeps the counters far from the [int] bounds. *)
Fixpoint processAll (c : Collaborators) (keys : list string)
    (w : World) (found errors : Z) : World * (Z * Z) :=
  match keys with
  | [] => (w, (found, errors))
  | key :: rest =>
      match processCandidate c key w with
      | (w', Stored) => processAll c rest w' (found + 1) errors
      | (w', Errored) => processAll c rest w' found (errors + 1)
      | (w', Skipped) => processAll c rest w' found errors
      end
  end.

(** Modelled from the spec: [RunSync(issuerTaxID, window) -> SyncJob],
    steps 1 to 5 of section 4.1. *)
Definition RunSync (c : Collaborators) (issuer : string)
    (window : option (GoTime * GoTime)) (w : World) : World * SyncJob :=
  let w := log CallEnumerate w in
  match enumerate c issuer window with
  | inl e =>
      (w, MkSyncJob (run_id c) SyncJobStatusFailed (clock_start c)
            (Some (clock_end c)) 0 0 (summarize e))
  | inr keys =>
      let '(w', (found, errors)) := processAll c keys w 0 0 in
      (w', MkSyncJob (run_id c) SyncJobStatusCompleted (clock_start c)
             (Some (clock_end c)) found errors "")
  end.

(** Modelled from the spec: [List(filter)]: normalization runs before any
    store query; a validation error is returned without reading the
    store. *)
Definition ListNFes (store : gmap string NFe) (f : NFeFilter)
  : DomainError + NFePaginatedResponse :=
  match Validate f with
  | (_, Some err) => inl err
  | (f', None) =>
      let '(page, total) := FindByFilter f' store in
      inr (MkResponse page (MkPagination (Page f') (Limit f') total))
  end.

End Service.

(** ** Candidates that cannot be stored *)

Module Rerun.
Import Domain Repository Service.


(** What the Artifact Store of [s'] may hold beyond that of [s]: nothing
    at a path that cannot be written. *)
Definition no_forbidden_write (c : Collaborators) (s s' : World) : Prop :=
  forall p, artifacts s !! p = None -> artifact_io_ok c p = false ->
            artifacts s' !! p = None.

End Rerun.

(** ** Sample collaborators and stores *)

Module Samples.
Import Domain Repository Service.

Definition key_a : string := "35251234567890123456789012345678901234567890".
Definition key_b : string := "35251234567890123456789012345678901234567891".
Definition key_c : string := "35251234567890123456789012345678901234567892".

Definition issuer : string := "12345678000100".

Definition sample_describe (key : string) (_ : Bytes) : NFe :=
  MkNFe 1 key "000123" "1" issuer "Empresa Teste LTDA"
    (civil_date 2025 12 13) (Money.float_of_cents 150050) ""
    NFeStatusAutorizada None "" (civil_date 2025 12 13) (civil_date 2025 12 13).

Definition sample_artifact : Bytes := [Byte.x3c; Byte.x2f; Byte.x3e].

(** An authority that lists three keys and serves every artifact. *)
Definition healthy : Collaborators :=
  MkCollaborators
    (fun _ _ => inr [key_a; key_b; key_c])
    (fun _ => inr sample_artifact)
    sample_describe (fun _ => true) (fun _ => true)
    7 (civil_date 2025 12 14) (civil_date 2025 12 14).

(** The same listing, with the fetch of [key_b] failing. *)
Definition one_fetch_down : Collaborators :=
  MkCollaborators
    (fun _ _ => inr [key_a; key_b; key_c])
    (fun key => if String.eqb key key_b
                then inl (TransportError "timeout") else inr sample_artifact)
    sample_describe (fun _ => true) (fun _ => true)
    8 (civil_date 2025 12 14) (civil_date 2025 12 14).

(** An authority whose listing fails. *)
Definition listing_down : Collaborators :=
  MkCollaborators
    (fun _ _ => inl (TransportError "connection refused"))
    (fun _ => inr sample_artifact)
    sample_describe (fun _ => true) (fun _ => true)
    9 (civil_date 2025 12 14) (civil_date 2025 12 14).

Definition empty_world : World := MkWorld ∅ ∅ [].

Definition dated (key : string) (issued : GoTime) : NFe :=
  MkNFe 1 key "000123" "1" issuer "Empresa Teste LTDA" issued
    (Money.float_of_cents 150050) (artifactPath issued key)
    NFeStatusAutorizada None "" issued issued.

(** Three documents issued on 2025-01-01, 2025-06-01 and 2025-12-01. *)
Definition year_store : gmap string NFe :=
  <[key_a := dated key_a (civil_date 2025 1 1)]>
    (<[key_b := dated key_b (civil_date 2025 6 1)]>
       (<[key_c := dated key_c (civil_date 2025 12 1)]> ∅)).

Definition full_year : NFeFilter :=
  MkFilter "" "" (Some (civil_date 2025 1 1)) (Some (civil_date 2025 12 31)) 0 0.

End Samples.

(** ** Go error values *)

Module GoErr.
Import Domain.

(** An [error] value: one of the package-level sentinels of the domain
    package, any other error with its message, or an error built by
    [fmt.Errorf(prefix + "%w", cause)]. *)
Inductive GoError : Type :=
| Sentinel (e : DomainError)
| Opaque (msg : string)
| Wrapped (prefix : string) (cause : GoError).

(** [err == domain.ErrNFeNotFound]: identity with the sentinel itself; an
    error that wraps the sentinel is a different value. *)
Definition is_sentinel (s : DomainError) (err : GoError) : bool :=
  match err, s with
  | Sentinel ErrNFeNotFound, ErrNFeNotFound => true
  | Sentinel ErrInvalidStatus, ErrInvalidStatus => true
  | _, _ => false
  end.

(** [errors.Unwrap]. *)
Definition Unwrap (err : GoError) : option GoError :=
  match err with
  | Wrapped _ cause => Some cause
  | _ => None
  end.

(** [err.Error()]; the texts of the sentinels are declared in
    [internal/domain/errors.go], which is not among the sources, and are
    taken as a parameter. *)
Fixpoint ErrorText (sentinel_text : DomainError -> string) (err : GoError)
  : string :=
  match err with
  | Sentinel s => sentinel_text s
  | Opaque msg => msg
  | Wrapped prefix cause => prefix ++ ErrorText sentinel_text cause
  end.

End GoErr.

(** ** net/http response writer

    [http.ResponseWriter] as the handlers use it: headers are set on a
    live map, [WriteHeader] sends the status with the headers set so far
    (only the first call counts), [Write] sends a body chunk and implies
    status 200 when no status was written. *)

Module Http.
Import Domain Repository.

Definition StatusOK : Z := 200.
Definition StatusBadRequest : Z := 400.
Definition StatusNotFound : Z := 404.
Definition StatusInternalServerError : Z := 500.

(** [type ErrorResponse struct] of the handler. *)
Record ErrorResponse : Type := MkErrorResponse {
  erError : string;
  erMessage : string
}.

(** The value handed to [json.NewEncoder(w).Encode]. *)
Inductive Encoded : Type :=
| EncSyncJob (job : SyncJob)
| EncPage (response : NFePaginatedResponse)
| EncNFe (nfe : NFe)
| EncStats (stats : NFeStats)
| EncError (errResp : ErrorResponse).

Inductive Chunk : Type :=
| JSONChunk (v : Encoded)
| RawChunk (b : Bytes).

(** [time.Time.MarshalJSON] fails for a year outside [0, 9999]. *)
Definition time_encodes (t : GoTime) : bool :=
  (0 <=? t_year t) && (t_year t <? 10000).

(** Whether [encoding/json] can marshal an [NFe]: a [float64] that is NaN
    or infinite is an unsupported value; the nil [DataCancelamento] is
    omitted. *)
Definition nfe_encodes (d : NFe) : bool :=
  PrimFloat.is_finite (ValorTotal d)
  && time_encodes (DataEmissao d)
  && from_option time_encodes true (DataCancelamento d)
  && time_encodes (CreatedAt d)
  && time_encodes (UpdatedAt d).

(** Whether [json.Encoder.Encode] succeeds on the value; when it fails it
    has written nothing. *)
Definition encodes (v : Encoded) : bool :=
  match v with
  | EncSyncJob job =>
      time_encodes (StartedAt job) && from_option time_encodes true (EndedAt job)
  | EncPage response => forallb nfe_encodes (Data response)
  | EncNFe nfe => nfe_encodes nfe
  | EncStats stats =>
      PrimFloat.is_finite (sValorTotal stats)
      && time_encodes (Inicio (sPeriodo stats))
      && time_encodes (Fim (sPeriodo stats))
  | EncError _ => true
  end.

Record ResponseWriter : Type := MkWriter {
  hdr : gmap string string;                 (* w.Header() *)
  wrote : option (Z * gmap string string);  (* status and headers sent *)
  chunks : list Chunk                       (* body, in order *)
}.

Definition newWriter : ResponseWriter := MkWriter ∅ None [].

Definition HeaderSet (key value : string) (w : ResponseWriter) : ResponseWriter :=
  MkWriter (<[key := value]> (hdr w)) (wrote w) (chunks w).

Definition WriteHeader (code : Z) (w : ResponseWriter) : ResponseWriter :=
  match wrote w with
  | Some _ => w
  | None => MkWriter (hdr w) (Some (code, hdr w)) (chunks w)
  end.

Definition WriteChunk (c : Chunk) (w : ResponseWriter) : ResponseWriter :=
  let w := WriteHeader StatusOK w in
  MkWriter (hdr w) (wrote w) (chunks w ++ [c]).

Definition statusOf (w : ResponseWriter) : option Z := fst <$> wrote w.

Definition sentHeader (key : string) (w : ResponseWriter) : option string :=
  wrote w ≫= fun sent => sent.2 !! key.

(** A well-formed response: one status out of the four the handlers
    use, sent once with a [Content-Type], and at most one body chunk.  A
    status other than 200 carries an [ErrorResponse] as JSON; a 200
    carries a value that is no [ErrorResponse] as JSON, or raw bytes as
    XML, or, when the value could not be encoded, no body at all. *)
Definition complete_response (w : ResponseWriter) : Prop :=
  exists code sent,
    wrote w = Some (code, sent) /\
    code ∈ [StatusOK; StatusBadRequest; StatusNotFound; StatusInternalServerError] /\
    match chunks w with
    | [] => code = StatusOK /\ sent !! "Content-Type" = Some "application/json"
    | [JSONChunk v] =>
        sent !! "Content-Type" = Some "application/json" /\
        encodes v = true /\
        (code <> StatusOK <-> exists errResp, v = EncError errResp)
    | [RawChunk _] =>
        sent !! "Content-Type" = Some "application/xml" /\ code = StatusOK
    | _ => False
    end.

End Http.

(** ** internal/handler/nfe_handler.go, the remaining endpoints

    The handler's logger calls have no effect on the response and are
    left out. *)

Module NFeHandler.
Import Domain GoStd Repository GoErr Http.

(** [strconv.Itoa]. *)
Definition Itoa (z : Z) : string :=
  DecimalString.NilZero.string_of_int (Z.to_int z).

Section WithErrorTexts.
(** The texts of the domain sentinels, and the error [time.Parse] returns
    for a string it rejects. *)
Context (sentinel_text : DomainError -> string).
Context (time_parse_error : string -> GoError).

(** [func (h *NFeHandler) sendJSON]: the error [Encode] returns is
    dropped, so a value that cannot be encoded leaves the status sent
    and no body. *)
Definition sendJSON (w : ResponseWriter) (status : Z) (data : Encoded)
  : ResponseWriter :=
  let w := HeaderSet "Content-Type" "application/json" w in
  let w := WriteHeader status w in
  if encodes data then WriteChunk (JSONChunk data) w else w.

(** [func (h *NFeHandler) sendError]; [None] is a nil [err]. *)
Definition sendError (w : ResponseWriter) (status : Z) (message : string)
    (err : option GoError) : ResponseWriter :=
  let errResp := MkErrorResponse "" message in
  let errResp :=
    match err with
    | Some e => MkErrorResponse (ErrorText sentinel_text e) (erMessage errResp)
    | None => errResp
    end in
  sendJSON w status (EncError errResp).

(** [func (h *NFeHandler) SyncNFes] *)
Definition SyncNFes (service : GoError + SyncJob) (w : ResponseWriter)
  : ResponseWriter :=
  match service with
  | inl err =>
      sendError w StatusInternalServerError "Erro ao sincronizar NFes" (Some err)
  | inr job => sendJSON w StatusOK (EncSyncJob job)
  end.

(** [func (h *NFeHandler) ListNFes], with the response it writes. *)
Definition ListNFes (service : NFeFilter -> GoError + NFePaginatedResponse)
    (q : gmap string (list string)) (w : ResponseWriter) : ResponseWriter :=
  let filter := Handler.parseFilter q in
  match service filter with
  | inl err =>
      sendError w StatusInternalServerError "Erro ao listar NFes" (Some err)
  | inr response => sendJSON w StatusOK (EncPage response)
  end.

(** [func (h *NFeHandler) GetNFe]; [chaveAcesso] is the URL parameter. *)
Definition GetNFe (service : string -> GoError + NFe) (chaveAcesso : string)
    (w : ResponseWriter) : ResponseWriter :=
  match service chaveAcesso with
  | inl err =>
      if is_sentinel ErrNFeNotFound err
      then sendError w StatusNotFound "NFe não encontrada" (Some err)
      else sendError w StatusInternalServerError "Erro ao buscar NFe" (Some err)
  | inr nfe => sendJSON w StatusOK (EncNFe nfe)
  end.

(** [func (h *NFeHandler) DownloadXML]; [readFile] is [os.ReadFile]. *)
Definition DownloadXML (service : string -> GoError + string)
    (readFile : string -> GoError + Bytes) (chaveAcesso : string)
    (w : ResponseWriter) : ResponseWriter :=
  match service chaveAcesso with
  | inl err =>
      if is_sentinel ErrNFeNotFound err
      then sendError w StatusNotFound "NFe não encontrada" (Some err)
      else sendError w StatusInternalServerError "Erro ao buscar XML" (Some err)
  | inr xmlPath =>
      match readFile xmlPath with
      | inl err =>
          sendError w StatusInternalServerError "Erro ao ler XML" (Some err)
      | inr xmlData =>
          let w := HeaderSet "Content-Type" "application/xml" w in
          let w := HeaderSet "Content-Disposition"
                     ("attachment; filename=" ++ chaveAcesso ++ ".xml") w in
          let w := HeaderSet "Content-Length"
                     (Itoa (Z.of_nat (length xmlData))) w in
          let w := WriteHeader StatusOK w in
          WriteChunk (RawChunk xmlData) w
      end
  end.

(** [func (h *NFeHandler) GetStats] *)
Definition GetStats (service : GoTime -> GoTime -> GoError + NFeStats)
    (q : gmap string (list string)) (w : ResponseWriter) : ResponseWriter :=
  let startDateStr := Get q "start_date" in
  let endDateStr := Get q "end_date" in
  if String.eqb startDateStr "" || String.eqb endDateStr "" then
    sendError w StatusBadRequest "start_date e end_date são obrigatórios" None
  else
    match ParseDate startDateStr with
    | None =>
        sendError w StatusBadRequest "Formato de data inválido para start_date"
          (Some (time_parse_error startDateStr))
    | Some startDate =>
        match ParseDate endDateStr with
        | None =>
            sendError w StatusBadRequest "Formato de data inválido para end_date"
              (Some (time_parse_error endDateStr))
        | Some endDate =>
            match service startDate endDate with
            | inl err =>
                sendError w StatusInternalServerError
                  "Erro ao buscar estatísticas" (Some err)
            | inr stats => sendJSON w StatusOK (EncStats stats)
            end
        end
    end.

End WithErrorTexts.

End NFeHandler.

(** ** pkg/database/postgres.go *)

Module Database.
Import GoErr.

(** [sql.DB] by its pool settings: the limit on open connections (0: no
    limit), the number of idle connections retained, and the two
    durations in nanoseconds (0: no limit). *)
Record DB : Type := MkDB {
  db_dsn : string;
  maxOpen : Z;
  maxIdle : Z;
  connMaxLifetime : Z;
  connMaxIdleTime : Z
}.

Definition Minute : Z := 60 * 1000000000.
Definition Hour : Z := 60 * Minute.

(** A pool as [sql.Open] leaves it: no limit on open connections, two
    idle connections retained. *)
Definition openedDB (dsn : string) : DB := MkDB dsn 0 2 0 0.

(** [sql.DB.SetMaxOpenConns], from its documentation: [n <= 0] means
    no limit; a retained-idle count above a positive new limit is
    reduced to the limit. *)
Definition SetMaxOpenConns (n : Z) (db : DB) : DB :=
  let n' := if n <? 0 then 0 else n in
  let idle := if (0 <? n') && (n' <? maxIdle db) then n' else maxIdle db in
  MkDB (db_dsn db) n' idle (connMaxLifetime db) (connMaxIdleTime db).

(** [sql.DB.SetMaxIdleConns], from its documentation: [n <= 0] means
    no idle connection is retained; a count above a positive open limit
    is reduced to the limit. *)
Definition SetMaxIdleConns (n : Z) (db : DB) : DB :=
  let n' := if 0 <? n then n else 0 in
  let idle := if (0 <? maxOpen db) && (maxOpen db <? n') then maxOpen db else n' in
  MkDB (db_dsn db) (maxOpen db) idle (connMaxLifetime db) (connMaxIdleTime db).

Definition SetConnMaxLifetime (d : Z) (db : DB) : DB :=
  MkDB (db_dsn db) (maxOpen db) (maxIdle db) (if d <? 0 then 0 else d)
    (connMaxIdleTime db).

Definition SetConnMaxIdleTime (d : Z) (db : DB) : DB :=
  MkDB (db_dsn db) (maxOpen db) (maxIdle db) (connMaxLifetime db)
    (if d <? 0 then 0 else d).

(** [func NewPostgresConnection]; [connect] is [sqlx.Connect("postgres", _)]
    and [ping] is [db.Ping]; Go's [/] on [int] truncates toward zero. *)
Definition NewPostgresConnection
    (connect : string -> GoError + DB) (ping : DB -> option GoError)
    (dsn : string) (maxConnections : Z) : GoError + DB :=
  match connect dsn with
  | inl err => inl (Wrapped "failed to connect to database: " err)
  | inr db =>
      let db := SetMaxOpenConns maxConnections db in
      let db := SetMaxIdleConns (Z.quot maxConnections 5) db in
      let db := SetConnMaxLifetime Hour db in
      let db := SetConnMaxIdleTime (10 * Minute) db in
      match ping db with
      | Some err => inl (Wrapped "failed to ping database: " err)
      | None => inr db
      end
  end.

End Database.

(** ** pkg/certificate/loader.go *)

Module Certificate.
Import GoErr Repository.

(** [x509.Certificate], by its DER bytes. *)
Record X509 : Type := MkX509 { Raw : Bytes }.

(** [tls.Certificate]; the private key is kept as the decoder gives it. *)
Record TLSCertificate (K : Type) : Type := MkTLS {
  Chain : list Bytes;
  PrivateKey : K;
  Leaf : option X509
}.
Arguments MkTLS {K} _ _ _.
Arguments Chain {K} _.
Arguments PrivateKey {K} _.
Arguments Leaf {K} _.

(** [func LoadCertificate]; [readFile] is [os.ReadFile] and [decode] is
    [pkcs12.Decode]. *)
Definition LoadCertificate {K : Type}
    (readFile : string -> GoError + Bytes)
    (decode : Bytes -> string -> GoError + (K * X509))
    (certPath password : string) : GoError + TLSCertificate K :=
  match readFile certPath with
  | inl err => inl (Wrapped "failed to read certificate file: " err)
  | inr certData =>
      match decode certData password with
      | inl err => inl (Wrapped "failed to decode certificate: " err)
      | inr (privateKey, certificate) =>
          inr (MkTLS [Raw certificate] privateKey (Some certificate))
      end
  end.

End Certificate.

(** ** Sample services for the endpoints *)

Module EndpointSamples.
Import Domain GoErr Repository Database Certificate.

Definition sample_texts (e : DomainError) : string :=
  match e with
  | ErrInvalidStatus => "invalid status"
  | ErrNFeNotFound => "nfe not found"
  end.

Definition sample_parse_error (s : string) : GoError :=
  Opaque ("parsing time: " ++ s).

Definition empty_page : NFePaginatedResponse :=
  MkResponse [] (MkPagination 1 20 0).

Definition list_service (_ : NFeFilter) : GoError + NFePaginatedResponse :=
  inr empty_page.

Definition stats_service (s e : GoTime) : GoError + NFeStats :=
  inr (MkNFeStats 0 (Money.float_of_cents 0) (MkPeriodo s e) ∅).

(** A service whose statistics hold a total that is not a number. *)
Definition nan_stats_service (s e : GoTime) : GoError + NFeStats :=
  inr (MkNFeStats 0 PrimFloat.nan (MkPeriodo s e) ∅).

(** A service that knows one key, and a disk that holds its file. *)
Definition path_service (chave : string) : GoError + string :=
  if String.eqb chave Samples.key_a then inr "/storage/xmls/2025/12/a.xml"
  else inl (Sentinel ErrNFeNotFound).

Definition disk (path : string) : GoError + Bytes :=
  if String.eqb path "/storage/xmls/2025/12/a.xml"
  then inr Samples.sample_artifact
  else inl (Opaque "no such file or directory").

Definition reachable (dsn : string) : GoError + DB := inr (openedDB dsn).

Definition alive (_ : DB) : option GoError := None.

Definition pfx_decode (b : Bytes) (password : string) : GoError + (Bytes * X509) :=
  if String.eqb password "secret" then inr (b, MkX509 b)
  else inl (Opaque "pkcs12: decryption password incorrect").

End EndpointSamples.

(** * Properties *)

(** Case analysis on every conditional and option match of the goal. *)
Ltac case_branches :=
  repeat match goal with
         | |- context [if ?b then _ else _] => destruct b
         | |- context [match ?o with Some _ => _ | None => _ end] => destruct o
         end; reflexivity.

(** ** Machine integers *)

Section GoIntFacts.
Import GoInt.

Lemma wrap64_in_range z : in_range (wrap64 z).
Proof.
  unfold in_range, wrap64, MinInt, MaxInt.
  pose proof (Z.mod_pos_bound (z + 2 ^ 63) (2 ^ 64) ltac:(lia)). lia.
Qed.

Lemma wrap64_id z : in_range z -> wrap64 z = z.
Proof.
  unfold in_range, wrap64, MinInt, MaxInt. intros Hz.
  rewrite Z.mod_small by lia. lia.
Qed.

End GoIntFacts.

(** ** Filter normalization *)

Section FilterFacts.
Import Domain.

Lemma IsValid_recognized (s : NFeStatus) :
  IsValid s = true <-> s ∈ recognized.
Proof.
  unfold IsValid, recognized. split.
  - repeat match goal with
           | |- context [String.eqb s ?c] =>
               destruct (String.eqb_spec s c) as [->|?]
           end;
      first [ discriminate | intros _; set_solver ].
  - rewrite !elem_of_cons, elem_of_nil.
    intros [->|[->|[->|[->|[->|[]]]]]]; reflexivity.
Qed.

Lemma Validate_Page (f : NFeFilter) :
  Page (Validate f).1 = if Page f <? 1 then 1 else Page f.
Proof.
  unfold Validate.
  destruct (Page f <? 1) eqn:Hp; cbn [Page set_Page Limit];
    repeat match goal with |- context [if ?b then _ else _] =>
      destruct b; cbn [fst Page set_Page set_Limit] end; auto.
Qed.

Lemma Validate_Limit (f : NFeFilter) :
  Limit (Validate f).1 =
    if (Limit f <? 1) || (100 <? Limit f) then 20 else Limit f.
Proof.
  unfold Validate.
  destruct (Page f <? 1); cbn [Page set_Page Limit];
    destruct ((Limit f <? 1) || (100 <? Limit f));
    cbn [fStatus set_Limit set_Page];
    match goal with |- context [if ?b then _ else _] => destruct b end;
    reflexivity.
Qed.

Lemma Validate_fStatus (f : NFeFilter) : fStatus (Validate f).1 = fStatus f.
Proof.
  unfold Validate.
  destruct (Page f <? 1); cbn [Page set_Page Limit];
    destruct ((Limit f <? 1) || (100 <? Limit f));
    cbn [fStatus set_Limit set_Page];
    match goal with |- context [if ?b then _ else _] => destruct b end;
    reflexivity.
Qed.

Lemma Validate_error (f : NFeFilter) :
  (Validate f).2 =
    if negb (String.eqb (fStatus f) "") && negb (IsValid (fStatus f))
    then Some ErrInvalidStatus else None.
Proof.
  unfold Validate.
  destruct (Page f <? 1); cbn [Page set_Page Limit];
    destruct ((Limit f <? 1) || (100 <? Limit f));
    cbn [fStatus set_Limit set_Page];
    match goal with |- context [if ?b then _ else _] => destruct b end;
    reflexivity.
Qed.

End FilterFacts.

Section FilterClaims.
Import Domain.

(** C4. Filter normalization: after [Validate] the page is 1 whenever the
    input page was absent (zero) or below 1, and is kept otherwise; the
    page size is 20 whenever the input page size was absent or outside
    [1,100], and is kept when inside; a page size of 500 becomes the
    default 20, neither 500 nor 100. *)
Theorem Validate_normalizes_page_and_limit (f : NFeFilter) :
  let f' := (Validate f).1 in
  (Page f < 1 -> Page f' = 1) /\
  (1 <= Page f -> Page f' = Page f) /\
  (Limit f < 1 \/ 100 < Limit f -> Limit f' = 20) /\
  (1 <= Limit f <= 100 -> Limit f' = Limit f) /\
  (Limit f = 500 -> Limit f' = 20 /\ Limit f' <> 500 /\ Limit f' <> 100).
Proof.
  cbv zeta. rewrite Validate_Page, Validate_Limit.
  destruct (Z.ltb_spec (Page f) 1), (Z.ltb_spec (Limit f) 1),
    (Z.ltb_spec 100 (Limit f)); cbn [orb]; intuition lia.
Qed.

Example Validate_absent_page_and_limit :
  Validate (MkFilter "" "" None None 0 0)
  = (MkFilter "" "" None None 1 20, None).
Proof. reflexivity. Qed.

Example Validate_limit_500 :
  Validate (MkFilter "" "" None None 3 500)
  = (MkFilter "" "" None None 3 20, None).
Proof. reflexivity. Qed.

Lemma Validate_error_iff_status_aux (f : NFeFilter) :
  (Validate f).2 <> None <-> fStatus f <> "" /\ fStatus f ∉ recognized.
Proof.
  rewrite Validate_error.
  destruct (String.eqb_spec (fStatus f) "") as [He|He]; cbn [negb andb].
  - split; [congruence | intros [? _]; congruence].
  - destruct (IsValid (fStatus f)) eqn:Hv; cbn [negb].
    + apply IsValid_recognized in Hv.
      split; [congruence | intros [_ ?]; contradiction].
    + split; [|congruence]. intros _. split; [assumption|].
      intros Hin. apply IsValid_recognized in Hin. congruence.
Qed.

(** C5. Invalid status rejected: [Validate] returns a validation error
    if and only if the status is non-empty and not one of the five
    recognized values; the error is always [ErrInvalidStatus], and
    [Validate] is a function of the filter alone (it has no access to a
    store). *)
Theorem Validate_error_iff_unrecognized_status (f : NFeFilter) :
  ((Validate f).2 <> None <-> fStatus f <> "" /\ fStatus f ∉ recognized) /\
  ((Validate f).2 = Some ErrInvalidStatus \/ (Validate f).2 = None).
Proof.
  split; [apply Validate_error_iff_status_aux|].
  rewrite Validate_error. case_branches || (destruct (_ && _); auto).
Qed.

Example Validate_bogus_status :
  (Validate (MkFilter "" "bogus" None None 1 20)).2 = Some ErrInvalidStatus.
Proof. reflexivity. Qed.

(** C9, as stated, fails: with [Page] at the largest [int] and [Limit]
    at 100 the filter validates without error and unchanged, yet the
    64-bit product [(Page - 1) * Limit] wraps around and [GetOffset]
    returns -200. *)
Lemma GetOffset_negative_after_Validate :
  let f := MkFilter "" "" None None 9223372036854775807 100 in
  Validate f = (f, None) /\
  GetOffset (Validate f).1 = -200 /\
  GetOffset (Validate f).1 <> (Page (Validate f).1 - 1) * Limit (Validate f).1.
Proof. cbv zeta. repeat split. vm_compute. discriminate. Qed.

(** C9, amended. For every filter on which [Validate] returns without
    error, the filter afterwards has [Page >= 1] and [1 <= Limit <= 100];
    whenever the product [(Page - 1) * Limit] does not exceed the largest
    [int], [GetOffset] returns exactly that product, which is then
    non-negative. *)
Theorem Validate_pagination_invariant (f : NFeFilter) :
  (Validate f).2 = None ->
  let f' := (Validate f).1 in
  1 <= Page f' /\ 1 <= Limit f' <= 100 /\
  ((Page f' - 1) * Limit f' <= GoInt.MaxInt ->
     GetOffset f' = (Page f' - 1) * Limit f' /\ 0 <= GetOffset f').
Proof.
  intros _. cbv zeta.
  assert (HP : 1 <= Page (Validate f).1).
  { rewrite Validate_Page. destruct (Page f <? 1) eqn:E; lia. }
  assert (HL : 1 <= Limit (Validate f).1 <= 100).
  { rewrite Validate_Limit.
    destruct ((Limit f <? 1) || (100 <? Limit f)) eqn:E; [lia|].
    apply orb_false_iff in E. lia. }
  split; [exact HP|]. split; [exact HL|].
  intros Hfit. unfold GetOffset, GoInt.mul, GoInt.sub.
  set (p := Page (Validate f).1) in *. set (l := Limit (Validate f).1) in *.
  assert (Hp1 : GoInt.in_range (p - 1)).
  { unfold GoInt.in_range, GoInt.MinInt, GoInt.MaxInt in *. split; [lia|]. nia. }
  rewrite (wrap64_id (p - 1)) by exact Hp1.
  rewrite wrap64_id.
  - split; [reflexivity | nia].
  - unfold GoInt.in_range, GoInt.MinInt in *. split; [nia | lia].
Qed.

Lemma Validate_pagination_invariant_witness :
  let f := MkFilter "12345678000100" "autorizada" None None 3 50 in
  (Validate f).2 = None /\
  GetOffset (Validate f).1 = 100.
Proof.
  cbv zeta. split; [reflexivity|].
  pose proof (Validate_pagination_invariant
                (MkFilter "12345678000100" "autorizada" None None 3 50)
                eq_refl) as H.
  cbv zeta in H. destruct H as (_ & _ & H).
  destruct H as [H _]; [vm_compute; discriminate | exact H].
Defined.

End FilterClaims.

(** ** The list handler's query parsing *)

Section HandlerClaims.
Import Domain GoStd Handler.

Lemma Atoi_empty : Atoi "" = None.
Proof. reflexivity. Qed.

Lemma ParseDate_empty : ParseDate "" = None.
Proof. reflexivity. Qed.

Lemma parseFilter_fStatus q : fStatus (parseFilter q) = Get q "status".
Proof.
  unfold parseFilter, set_Page, set_Limit, set_StartDate, set_EndDate.
  case_branches.
Qed.

Lemma parseFilter_Page q :
  Page (parseFilter q) = default 0 (Atoi (Get q "page")).
Proof.
  unfold parseFilter, set_Page, set_Limit, set_StartDate, set_EndDate.
  destruct (String.eqb_spec (Get q "page") "") as [->|_]; cbn [negb].
  - case_branches.
  - destruct (Atoi (Get q "page")); cbn [default]; case_branches.
Qed.

Lemma parseFilter_Limit q :
  Limit (parseFilter q) = default 0 (Atoi (Get q "limit")).
Proof.
  unfold parseFilter, set_Page, set_Limit, set_StartDate, set_EndDate.
  destruct (String.eqb_spec (Get q "limit") "") as [->|_]; cbn [negb].
  - case_branches.
  - destruct (Atoi (Get q "limit")); cbn [default]; case_branches.
Qed.

Lemma parseFilter_StartDate q :
  StartDate (parseFilter q) = ParseDate (Get q "start_date").
Proof.
  unfold parseFilter, set_Page, set_Limit, set_StartDate, set_EndDate.
  destruct (String.eqb_spec (Get q "start_date") "") as [->|_]; cbn [negb].
  - case_branches.
  - destruct (ParseDate (Get q "start_date")); case_branches.
Qed.

Lemma parseFilter_EndDate q :
  EndDate (parseFilter q) = ParseDate (Get q "end_date").
Proof.
  unfold parseFilter, set_Page, set_Limit, set_StartDate, set_EndDate.
  destruct (String.eqb_spec (Get q "end_date") "") as [->|_]; cbn [negb].
  - case_branches.
  - destruct (ParseDate (Get q "end_date")); case_branches.
Qed.

Lemma Validate_dates (f : NFeFilter) :
  StartDate (Validate f).1 = StartDate f /\ EndDate (Validate f).1 = EndDate f.
Proof. unfold Validate, set_Page, set_Limit. split; case_branches. Qed.

(** C10. The list endpoint drops malformed query parameters other than
    the status: a [page] or [limit] value that does not parse as an
    integer (the empty value included) leaves the field at zero, which
    [Validate] then turns into the default; a [start_date] or [end_date]
    value that does not parse as YYYY-MM-DD leaves the bound unset; and
    [Validate] reports an error on the built filter exactly when the
    [status] value is non-empty and unrecognized, whatever the other
    parameters are. *)
Theorem ListNFes_drops_malformed_parameters (q : gmap string (list string)) :
  let f := parseFilter q in
  (Atoi (Get q "page") = None -> Page f = 0 /\ Page (Validate f).1 = 1) /\
  (Atoi (Get q "limit") = None -> Limit f = 0 /\ Limit (Validate f).1 = 20) /\
  (ParseDate (Get q "start_date") = None ->
     StartDate f = None /\ StartDate (Validate f).1 = None) /\
  (ParseDate (Get q "end_date") = None ->
     EndDate f = None /\ EndDate (Validate f).1 = None) /\
  ((Validate f).2 <> None <->
     Get q "status" <> "" /\ Get q "status" ∉ recognized).
Proof.
  cbv zeta. repeat split.
  - rewrite parseFilter_Page, H. reflexivity.
  - rewrite Validate_Page, parseFilter_Page, H. reflexivity.
  - rewrite parseFilter_Limit, H. reflexivity.
  - rewrite Validate_Limit, parseFilter_Limit, H. reflexivity.
  - rewrite parseFilter_StartDate. assumption.
  - rewrite (proj1 (Validate_dates _)), parseFilter_StartDate. assumption.
  - rewrite parseFilter_EndDate. assumption.
  - rewrite (proj2 (Validate_dates _)), parseFilter_EndDate. assumption.
  - apply Validate_error_iff_status_aux in H.
    rewrite parseFilter_fStatus in H. tauto.
  - apply Validate_error_iff_status_aux in H.
    rewrite parseFilter_fStatus in H. tauto.
  - intros H. apply Validate_error_iff_status_aux.
    rewrite parseFilter_fStatus. assumption.
Qed.

Example ListNFes_malformed_query :
  let q : gmap string (list string) :=
    {[ "page" := ["abc"]; "limit" := ["2x"];
       "start_date" := ["01/02/2025"]; "end_date" := ["2025-02-30"] ]} in
  parseFilter q = MkFilter "" "" None None 0 0 /\
  Validate (parseFilter q) = (MkFilter "" "" None None 1 20, None).
Proof. vm_compute. split; reflexivity. Qed.

End HandlerClaims.

(** ** Monetary values *)

Section MoneyClaims.
Import Domain Money.

Lemma pow2_mod5 (k : Z) : 0 <= k -> (2 ^ k) mod 5 <> 0.
Proof.
  intros Hk. pattern k. apply natlike_ind; [discriminate | | exact Hk].
  intros x Hx IH. rewrite Z.pow_succ_r by exact Hx.
  intros H. apply IH.
  pose proof (Z.mod_pos_bound (2 ^ x) 5 ltac:(lia)) as Hb.
  rewrite Z.mul_mod in H by lia.
  assert (Hc : 2 ^ x mod 5 = 0 \/ 2 ^ x mod 5 = 1 \/ 2 ^ x mod 5 = 2 \/
               2 ^ x mod 5 = 3 \/ 2 ^ x mod 5 = 4) by lia.
  destruct Hc as [Hc|[Hc|[Hc|[Hc|Hc]]]]; rewrite Hc in H;
    vm_compute in H; congruence.
Qed.

(** No [float64] denotes ten cents. *)
Lemma no_float_is_ten_cents (f : float) : exact_cents f 10 = false.
Proof.
  unfold exact_cents. destruct (Prim2SF f) as [| | |s m e]; try reflexivity.
  cbv zeta. destruct (Z.leb_spec 0 e) as [He|He].
  - apply Z.eqb_neq. intros H.
    assert (Hd : (100 | 10)) by (exists ((if s then Z.neg m else Z.pos m) * 2 ^ e); lia).
    destruct Hd as [x Hx]. lia.
  - apply Z.eqb_neq. intros H.
    apply (pow2_mod5 (- e)); [lia|].
    set (v := if s then Z.neg m else Z.pos m) in *.
    assert (Hq : 2 ^ (- e) = 5 * (2 * v)) by lia.
    rewrite Hq, Z.mul_comm. apply Z.mod_mul. lia.
Qed.

(** C6 does not hold of the code.  The claim: the total monetary value
    is represented and aggregated as a fixed-point decimal, without
    binary floating-point precision loss.  The code: [NFe.ValorTotal]
    and [NFeStats.ValorTotal] are [float64].  Whatever a document or a
    statistics record holds in that field, it is not the amount 0.10;
    the [float64] read from the decimal 0.10 differs from it; adding the
    fields of two documents of 0.10 and 0.20 does not give the [float64]
    of 0.30; the amount 1500.50 of the repository's tests happens to be
    exact. *)
Theorem ValorTotal_is_binary_float :
  (forall d : NFe, exact_cents (ValorTotal d) 10 = false) /\
  (forall st : NFeStats, exact_cents (sValorTotal st) 10 = false) /\
  Prim2SF (float_of_cents 10) = S754_finite false 7205759403792794 (-56) /\
  PrimFloat.eqb
    (PrimFloat.add (float_of_cents 10) (float_of_cents 20))
    (float_of_cents 30) = false /\
  exact_cents (float_of_cents 150050) 150050 = true.
Proof.
  split; [intros d; apply no_float_is_ten_cents|].
  split; [intros st; apply no_float_is_ten_cents|].
  repeat split; vm_compute; reflexivity.
Qed.

End MoneyClaims.

(** ** Artifact paths *)

Section PathClaims.
Import Service.

Lemma string_app_cons (x : ascii) (a b : string) :
  (String x a ++ b = String x (a ++ b))%string.
Proof. reflexivity. Qed.

Lemma string_app_nil_l (b : string) : ("" ++ b = b)%string.
Proof. reflexivity. Qed.

Lemma string_app_assoc (a b c : string) : ((a ++ b) ++ c = a ++ (b ++ c))%string.
Proof.
  induction a as [|x a IH]; [reflexivity|].
  rewrite !string_app_cons, IH. reflexivity.
Qed.

Lemma string_app_length (a b : string) :
  String.length (a ++ b) = (String.length a + String.length b)%nat.
Proof.
  induction a as [|x a IH]; [reflexivity|].
  rewrite string_app_cons. cbn [String.length]. now rewrite IH.
Qed.

Lemma string_app_inj_l (a b s : string) : (a ++ s = b ++ s)%string -> a = b.
Proof.
  revert b. induction a as [|x a IH]; intros [|y b] H;
    rewrite ?string_app_cons, ?string_app_nil_l in H.
  - reflexivity.
  - apply (f_equal String.length) in H. cbn [String.length] in H.
    rewrite string_app_length in H. lia.
  - apply (f_equal String.length) in H. cbn [String.length] in H.
    rewrite string_app_length in H. lia.
  - injection H as -> H. f_equal. apply IH, H.
Qed.

Lemma has_slash_app (a b : string) :
  has_slash (a ++ b) = has_slash a || has_slash b.
Proof.
  induction a as [|x a IH]; [reflexivity|].
  rewrite string_app_cons. cbn [has_slash]. rewrite IH. apply orb_assoc.
Qed.

Lemma dirname_basename_split (d f : string) :
  has_slash f = false ->
  dirname (d ++ "/" ++ f) = d /\ basename (d ++ "/" ++ f) = f.
Proof.
  intros Hf. induction d as [|x d [IHd IHb]].
  - rewrite string_app_nil_l, string_app_cons, string_app_nil_l.
    cbn [dirname basename]. rewrite Hf. split; reflexivity.
  - assert (Hs : has_slash (d ++ "/" ++ f) = true).
    { rewrite !has_slash_app. cbn [has_slash Ascii.eqb Bool.eqb].
      cbn. apply orb_true_r. }
    rewrite string_app_cons. cbn [dirname basename].
    rewrite Hs, IHd, IHb. split; reflexivity.
Qed.

Lemma artifactPath_split (t : GoTime) (key : string) :
  artifactPath t key
  = ((decimal (t_year t) ++ "/" ++ decimal (t_month t)) ++ "/" ++ (key ++ ".xml"))%string.
Proof. unfold artifactPath. now rewrite !string_app_assoc. Qed.

(** C8. Deterministic artifact path: the path has the shape
    [{year}/{month}/{accessKey}.xml] and is a function of the year and
    month of the issuance date and of the access key alone, so two
    computations agree; for access keys (which hold no slash), the
    directory component is [{year}/{month}] and the file name is
    [{accessKey}.xml], so that with the issuance date fixed a different
    key gives a different file name in the same directory. *)
Theorem artifactPath_deterministic (t t' : GoTime) (key key' : string) :
  has_slash key = false ->
  has_slash key' = false ->
  t_year t = t_year t' ->
  t_month t = t_month t' ->
  (artifactPath t key
     = decimal (t_year t) ++ "/" ++ decimal (t_month t) ++ "/" ++ key ++ ".xml")%string /\
  (key = key' -> artifactPath t key = artifactPath t' key') /\
  dirname (artifactPath t key) = (decimal (t_year t) ++ "/" ++ decimal (t_month t))%string /\
  basename (artifactPath t key) = (key ++ ".xml")%string /\
  dirname (artifactPath t key) = dirname (artifactPath t' key') /\
  (key <> key' ->
     basename (artifactPath t key) <> basename (artifactPath t' key') /\
     artifactPath t key <> artifactPath t' key').
Proof.
  intros Hk Hk' Hy Hm.
  assert (Hx : forall k, has_slash k = false -> has_slash (k ++ ".xml") = false).
  { intros k H. rewrite has_slash_app, H. reflexivity. }
  destruct (dirname_basename_split
              (decimal (t_year t) ++ "/" ++ decimal (t_month t)) (key ++ ".xml")
              (Hx _ Hk)) as [Hd Hb].
  destruct (dirname_basename_split
              (decimal (t_year t') ++ "/" ++ decimal (t_month t')) (key' ++ ".xml")
              (Hx _ Hk')) as [Hd' Hb'].
  rewrite <- artifactPath_split in Hd, Hb, Hd', Hb'.
  split; [reflexivity|].
  split; [intros ->; unfold artifactPath; now rewrite Hy, Hm|].
  split; [exact Hd|]. split; [exact Hb|].
  split; [rewrite Hd, Hd', Hy, Hm; reflexivity|].
  intros Hne.
  assert (Hbn : basename (artifactPath t key) <> basename (artifactPath t' key')).
  { rewrite Hb, Hb'. intros H. apply Hne. eapply string_app_inj_l, H. }
  split; [exact Hbn|]. intros H. apply Hbn. now rewrite H.
Qed.

Lemma artifactPath_deterministic_witness :
  let t := civil_date 2025 12 13 in
  let t' := civil_date 2025 12 1 in
  let key := "35251234567890123456789012345678901234567890" in
  let key' := "35251234567890123456789012345678901234567891" in
  artifactPath t key = "2025/12/35251234567890123456789012345678901234567890.xml" /\
  dirname (artifactPath t key) = "2025/12" /\
  dirname (artifactPath t' key') = "2025/12" /\
  basename (artifactPath t key) <> basename (artifactPath t' key').
Proof.
  cbv zeta.
  pose proof (artifactPath_deterministic
                (civil_date 2025 12 13) (civil_date 2025 12 1)
                "35251234567890123456789012345678901234567890"
                "35251234567890123456789012345678901234567891"
                eq_refl eq_refl eq_refl eq_refl) as (_ & _ & _ & _ & _ & Hne).
  split; [reflexivity|]. split; [reflexivity|]. split; [reflexivity|].
  apply Hne. discriminate.
Defined.

End PathClaims.

(** ** One candidate of a sync run *)

(** Case analysis on membership in an explicit list. *)
Ltac in_calls H :=
  repeat (apply elem_of_cons in H; destruct H as [H|H]);
  try (apply elem_of_nil in H; contradiction).

Section CandidateFacts.
Import Domain Repository Service.
Context (c : Collaborators).

Lemma exists_key_true key (m : gmap string NFe) :
  exists_key key m = true <-> is_Some (m !! key).
Proof. unfold exists_key. apply bool_decide_eq_true. Qed.

Lemma exists_key_false key (m : gmap string NFe) :
  exists_key key m = false <-> m !! key = None.
Proof.
  unfold exists_key. rewrite bool_decide_eq_false, <- eq_None_not_Some. tauto.
Qed.

Lemma newDocument_key key b : ChaveAcesso (newDocument c key b) = key.
Proof. reflexivity. Qed.

(** A key on file is skipped right after the existence check. *)
Lemma processCandidate_existing key w :
  is_Some (docs w !! key) ->
  processCandidate c key w = (log (CallExists key) w, Skipped).
Proof.
  intros H. unfold processCandidate, log. cbn [docs artifacts calls].
  apply exists_key_true in H. rewrite H. reflexivity.
Qed.

(** A failed fetch is counted and leaves both stores as they were. *)
Lemma processCandidate_fetch_fails key w e :
  docs w !! key = None ->
  fetchArtifact c key = inl e ->
  processCandidate c key w
  = (log (CallFetch key) (log (CallExists key) w), Errored).
Proof.
  intros H Hf. unfold processCandidate, log. cbn [docs artifacts calls].
  apply exists_key_false in H. rewrite H, Hf. reflexivity.
Qed.

(** With the fetch and both writes succeeding, a new key is stored. *)
Lemma processCandidate_stores key w b :
  docs w !! key = None ->
  fetchArtifact c key = inr b ->
  artifact_io_ok c (XMLPath (newDocument c key b)) = true ->
  document_io_ok c key = true ->
  exists w',
    processCandidate c key w = (w', Stored) /\
    docs w' = <[key := newDocument c key b]> (docs w).
Proof.
  intros H Hf Ha Hd. unfold processCandidate, log. cbn [docs artifacts calls].
  pose proof (proj2 (exists_key_false _ _) H) as Hx. rewrite Hx, Hf, Ha.
  unfold writeArtifact, log. cbn [artifacts docs calls].
  destruct (artifacts w !! _);
    unfold insert_doc; cbn [docs calls artifacts];
    rewrite newDocument_key, Hx, Hd; eexists; split; reflexivity.
Qed.

(** Whatever the collaborators answer: records on file stay as they
    are, the store grows by one record exactly when the outcome is
    [Stored], and a fetch or an insert is only issued for a key that was
    not on file. *)
Lemma processCandidate_spec key w :
  let r := processCandidate c key w in
  (forall k d, docs w !! k = Some d -> docs r.1 !! k = Some d) /\
  size (docs r.1) = (size (docs w) + (if r.2 is Stored then 1 else 0))%nat /\
  exists new,
    calls r.1 = (new ++ calls w)%list /\
    last new = Some (CallExists key) /\
    forall k, CallFetch k ∈ new \/ CallInsert k ∈ new ->
              k = key /\ docs w !! k = None.
Proof.
  cbv zeta. unfold processCandidate, log. cbn [docs artifacts calls].
  destruct (exists_key key (docs w)) eqn:Hx.
  { cbn. split; [auto|]. split; [lia|].
    exists [CallExists key]. split; [reflexivity|]. split; [reflexivity|].
    intros k [H|H]; in_calls H; discriminate. }
  apply exists_key_false in Hx.
  destruct (fetchArtifact c key) as [e|b].
  { cbn. split; [auto|]. split; [lia|].
    exists [CallFetch key; CallExists key].
    split; [reflexivity|]. split; [reflexivity|].
    intros k [H|H]; in_calls H; try discriminate.
    injection H as ->. auto. }
  unfold writeArtifact, log. cbn [artifacts docs calls].
  set (d := newDocument c key b).
  assert (Hlog : forall new : list Call,
             (forall x, x ∈ new -> x = CallInsert key \/ x = CallFetch key \/
                                 x = CallWriteArtifact (XMLPath d) \/
                                 x = CallExists key) ->
             forall k, CallFetch k ∈ new \/ CallInsert k ∈ new ->
                       k = key /\ docs w !! k = None).
  { intros new Hnew k [H|H]; apply Hnew in H;
      destruct H as [H|[H|[H|H]]]; try discriminate;
      injection H as ->; auto. }
  destruct (artifacts w !! XMLPath d) eqn:Hp;
    [|destruct (artifact_io_ok c (XMLPath d))];
    unfold log; cbn [docs calls artifacts];
    try (unfold insert_doc; cbn [docs];
         change (ChaveAcesso d) with key;
         rewrite (proj2 (exists_key_false _ _) Hx);
         destruct (document_io_ok c key)); cbn [fst snd docs calls].
  all: split;
    [ intros k d0 Hk; first [ exact Hk
        | rewrite lookup_insert_ne; [exact Hk | congruence] ] |].
  all: split;
    [ first [ rewrite map_size_insert_None by exact Hx; lia | lia ] |].
  1, 3: exists [CallInsert key; CallWriteArtifact (XMLPath d);
                CallFetch key; CallExists key].
  3, 4: exists [CallInsert key; CallWriteArtifact (XMLPath d);
                CallFetch key; CallExists key].
  5: exists [CallWriteArtifact (XMLPath d); CallFetch key; CallExists key].
  all: (split; [reflexivity|]); (split; [reflexivity|]);
    apply Hlog; intros x Hx'; in_calls Hx'; subst x; auto 6.
Qed.

End CandidateFacts.

(** ** The fold over the candidates *)

Section FoldFacts.
Import Domain Repository Service.
Context (c : Collaborators).

Lemma processAll_cons key rest w f e :
  processAll c (key :: rest) w f e
  = match processCandidate c key w with
    | (w', Stored) => processAll c rest w' (f + 1) e
    | (w', Errored) => processAll c rest w' f (e + 1)
    | (w', Skipped) => processAll c rest w' f e
    end.
Proof. reflexivity. Qed.

(** Whatever the collaborators answer, a run of the fold keeps the
    records on file, counts as found exactly the records it adds,
    examines every candidate, and fetches or inserts only keys that were
    not on file when it started. *)
Lemma processAll_spec keys : forall w f e,
  let r := processAll c keys w f e in
  (forall k d, docs w !! k = Some d -> docs r.1 !! k = Some d) /\
  Z.of_nat (size (docs r.1)) = Z.of_nat (size (docs w)) + (r.2.1 - f) /\
  e <= r.2.2 /\
  exists new,
    calls r.1 = (new ++ calls w)%list /\
    (forall k, k ∈ keys -> CallExists k ∈ new) /\
    (forall k, CallFetch k ∈ new \/ CallInsert k ∈ new -> docs w !! k = None).
Proof.
  induction keys as [|key rest IH]; intros w f e; cbv zeta.
  { cbn. split; [auto|]. split; [lia|]. split; [lia|].
    exists []. split; [reflexivity|]. split; [intros k H; inversion H|].
    intros k [H|H]; inversion H. }
  rewrite processAll_cons.
  destruct (processCandidate_spec c key w) as (Hmono & Hsize & new1 & Hc1 & Hlast & Hf1).
  destruct (processCandidate c key w) as [w1 o]. cbn [fst snd] in *.
  assert (Hgoal : forall f' e', f <= f' -> e <= e' ->
            Z.of_nat (size (docs w1)) = Z.of_nat (size (docs w)) + (f' - f) ->
            let r := processAll c rest w1 f' e' in
            (forall k d, docs w !! k = Some d -> docs r.1 !! k = Some d) /\
            Z.of_nat (size (docs r.1)) = Z.of_nat (size (docs w)) + (r.2.1 - f) /\
            e <= r.2.2 /\
            exists new,
              calls r.1 = (new ++ calls w)%list /\
              (forall k, k ∈ key :: rest -> CallExists k ∈ new) /\
              (forall k, CallFetch k ∈ new \/ CallInsert k ∈ new ->
                         docs w !! k = None)).
  { intros f' e' Hf' He' Hsz. cbv zeta.
    destruct (IH w1 f' e') as (Hm & Hs & Hle & new & Hc & Hex & Hfi).
    split; [intros k d Hk; apply Hm, Hmono, Hk|].
    split; [lia|]. split; [lia|].
    exists (new ++ new1)%list. split; [rewrite Hc, Hc1; apply app_assoc|].
    split.
    - intros k Hk. apply elem_of_app. apply elem_of_cons in Hk as [->|Hk].
      + right. destruct new1 as [|x l] using rev_ind; [discriminate|].
        rewrite last_snoc in Hlast. injection Hlast as ->.
        apply elem_of_app. right. constructor.
      + left. apply Hex, Hk.
    - intros k Hk.
      assert (Hk' : (CallFetch k ∈ new \/ CallInsert k ∈ new) \/
                    (CallFetch k ∈ new1 \/ CallInsert k ∈ new1)).
      { rewrite !elem_of_app in Hk. tauto. }
      destruct Hk' as [Hk'|Hk'].
      + apply Hfi in Hk'. destruct (docs w !! k) as [d|] eqn:Hd; [|reflexivity].
        apply Hmono in Hd. congruence.
      + apply Hf1 in Hk'. tauto. }
  destruct o; apply Hgoal; lia.
Qed.

(** Candidates that are on file, or whose fetch fails, leave the
    Document Store and the found counter as they were. *)
Lemma processAll_noop keys : forall w f e,
  (forall k, k ∈ keys ->
     is_Some (docs w !! k) \/ exists err, fetchArtifact c k = inl err) ->
  let r := processAll c keys w f e in
  docs r.1 = docs w /\ artifacts r.1 = artifacts w /\ r.2.1 = f.
Proof.
  induction keys as [|key rest IH]; intros w f e H; cbv zeta.
  { cbn. auto. }
  rewrite processAll_cons.
  assert (Hrest : forall w', docs w' = docs w ->
            forall k, k ∈ rest ->
              is_Some (docs w' !! k) \/ exists err, fetchArtifact c k = inl err).
  { intros w' -> k Hk. apply H. now right. }
  destruct (docs w !! key) as [d|] eqn:Hd.
  - rewrite processCandidate_existing by (rewrite Hd; eauto).
    apply (IH (log (CallExists key) w) f e). apply Hrest. reflexivity.
  - destruct (H key ltac:(left)) as [Hs|[err Herr]].
    { rewrite Hd in Hs. destruct Hs; discriminate. }
    rewrite (processCandidate_fetch_fails c key w err Hd Herr).
    apply (IH (log (CallFetch key) (log (CallExists key) w)) f (e + 1)).
    apply Hrest. reflexivity.
Qed.

(** New, distinct candidates of which only [k0] fails, at its fetch. *)
Lemma processAll_one_failing k0 err0 keys : forall w f e,
  NoDup keys ->
  (forall k, k ∈ keys -> docs w !! k = None) ->
  fetchArtifact c k0 = inl err0 ->
  (forall k, k ∈ keys -> k <> k0 -> exists b, fetchArtifact c k = inr b) ->
  (forall p, artifact_io_ok c p = true) ->
  (forall k, document_io_ok c k = true) ->
  let r := processAll c keys w f e in
  r.2.1 = f + Z.of_nat (length keys) - Z.of_nat (count_occ string_dec keys k0) /\
  r.2.2 = e + Z.of_nat (count_occ string_dec keys k0) /\
  (forall k, k ∈ keys -> k <> k0 -> is_Some (docs r.1 !! k)) /\
  (forall k, k ∉ keys \/ k = k0 -> docs r.1 !! k = docs w !! k).
Proof.
  induction keys as [|key rest IH]; intros w f e Hnd Hnew H0 Hok Hart Hdoc;
    cbv zeta.
  { cbn. split; [lia|]. split; [lia|]. split; [intros k H; inversion H|auto]. }
  apply NoDup_cons in Hnd as [Hkey Hnd].
  rewrite processAll_cons.
  assert (Hd : docs w !! key = None) by (apply Hnew; left).
  destruct (decide (key = k0)) as [->|Hne].
  - rewrite (processCandidate_fetch_fails c k0 w err0 Hd H0).
    set (w1 := log (CallFetch k0) (log (CallExists k0) w)).
    destruct (IH w1 f (e + 1) Hnd) as (Hf & He & Hin & Hout); auto.
    { intros k Hk. apply (Hnew k). now right. }
    { intros k Hk. apply Hok. now right. }
    rewrite count_occ_cons_eq by reflexivity. cbn [length].
    split; [lia|]. split; [lia|]. split.
    + intros k Hk Hk0. apply elem_of_cons in Hk as [->|Hk]; [congruence|].
      apply Hin; assumption.
    + intros k Hk. apply Hout. destruct Hk as [Hk|Hk]; [|now right].
      left. intros Hr. apply Hk. now right.
  - destruct (Hok key ltac:(left) Hne) as [b Hb].
    destruct (processCandidate_stores c key w b Hd Hb (Hart _) (Hdoc _))
      as (w1 & -> & Hw1).
    destruct (IH w1 (f + 1) e Hnd) as (Hf & He & Hin & Hout); auto.
    { intros k Hk. rewrite Hw1, lookup_insert_ne by (intros Heq; subst; contradiction).
      apply Hnew. now right. }
    { intros k Hk. apply Hok. now right. }
    rewrite count_occ_cons_neq by exact Hne.
    cbn [length]. split; [lia|]. split; [lia|]. split.
    + intros k Hk Hk0. apply elem_of_cons in Hk as [->|Hk].
      * rewrite Hout by (left; exact Hkey).
        rewrite Hw1, lookup_insert_eq. eauto.
      * apply Hin; assumption.
    + intros k Hk. rewrite Hout.
      * rewrite Hw1. apply lookup_insert_ne.
        destruct Hk as [Hk| ->]; [|exact Hne].
        intros ->. apply Hk. now left.
      * destruct Hk as [Hk|Hk]; [|now right].
        left. intros Hr. apply Hk. now right.
Qed.

End FoldFacts.

(** ** Running the fold again with the same collaborators *)

Section RerunFacts.
Import Domain Repository Service Rerun.
Context (c : Collaborators).

Lemma no_forbidden_write_same s s' :
  artifacts s' = artifacts s -> no_forbidden_write c s s'.
Proof. intros Ha p H _. rewrite Ha. exact H. Qed.

Lemma no_forbidden_write_refl s : no_forbidden_write c s s.
Proof. apply no_forbidden_write_same. reflexivity. Qed.








End RerunFacts.

(** ** Sync runs *)

Section SyncClaims.
Import Domain Repository Service Samples.

Lemma RunSync_failed c issuer window w e :
  enumerate c issuer window = inl e ->
  RunSync c issuer window w
  = (log CallEnumerate w,
     MkSyncJob (run_id c) SyncJobStatusFailed (clock_start c)
       (Some (clock_end c)) 0 0 (summarize e)).
Proof. intros H. unfold RunSync. rewrite H. reflexivity. Qed.

Lemma RunSync_completed c issuer window w keys :
  enumerate c issuer window = inr keys ->
  RunSync c issuer window w
  = let r := processAll c keys (log CallEnumerate w) 0 0 in
    (r.1, MkSyncJob (run_id c) SyncJobStatusCompleted (clock_start c)
            (Some (clock_end c)) r.2.1 r.2.2 "").
Proof.
  intros H. unfold RunSync. rewrite H.
  destruct (processAll c keys (log CallEnumerate w) 0 0) as [w' [f e]].
  reflexivity.
Qed.

Lemma summarize_nonempty e : summarize e <> "".
Proof. destruct e; discriminate. Qed.

(** C3. Enumeration failure is fatal and atomic: if the enumerate call
    fails, the returned job has status [failed] with a non-empty failure
    summary, both counters are 0, neither the Document Store nor the
    Artifact Store changes and the only call of the run is the
    enumeration; and a run ends [failed] only if the enumeration failed:
    when it succeeds the run ends [completed] with an empty failure
    text. *)
Theorem RunSync_enumeration_failure_is_fatal
    (c : Collaborators) (issuer : string) (window : option (GoTime * GoTime))
    (w : World) :
  let r := RunSync c issuer window w in
  (forall e, enumerate c issuer window = inl e ->
     jStatus r.2 = SyncJobStatusFailed /\
     jError r.2 = summarize e /\ jError r.2 <> "" /\
     NFesFound r.2 = 0 /\ NFesError r.2 = 0 /\
     docs r.1 = docs w /\ artifacts r.1 = artifacts w /\
     calls r.1 = CallEnumerate :: calls w) /\
  (jStatus r.2 = SyncJobStatusFailed <->
     exists e, enumerate c issuer window = inl e) /\
  (forall keys, enumerate c issuer window = inr keys ->
     jStatus r.2 = SyncJobStatusCompleted /\ jError r.2 = "").
Proof.
  cbv zeta. destruct (enumerate c issuer window) as [e|keys] eqn:He.
  - rewrite (RunSync_failed _ _ _ _ _ He). cbn.
    split; [|split; [split; eauto | intros keys H; discriminate]].
    intros e' [= <-]. repeat split. apply summarize_nonempty.
  - rewrite (RunSync_completed _ _ _ _ _ He). cbn.
    split; [intros e H; discriminate|].
    split; [|auto]. split; [discriminate | intros [e H]; discriminate].
Qed.

Lemma RunSync_enumeration_failure_is_fatal_witness :
  let r := RunSync listing_down issuer None empty_world in
  jStatus r.2 = SyncJobStatusFailed /\
  jError r.2 = "transport error: connection refused" /\
  NFesFound r.2 = 0 /\ NFesError r.2 = 0 /\
  docs r.1 = ∅ /\ artifacts r.1 = ∅ /\ calls r.1 = [CallEnumerate].
Proof.
  cbv zeta.
  destruct (RunSync_enumeration_failure_is_fatal listing_down issuer None empty_world)
    as [H _].
  specialize (H (TransportError "connection refused") eq_refl).
  destruct H as (H1 & H2 & _ & H3 & H4 & H5 & H6 & H7).
  repeat split; assumption.
Defined.

(** C2. Partial-failure isolation: in a run over N distinct candidate
    keys none of which is on file, if the fetch fails for exactly one of
    them and every other step succeeds, the job has found = N - 1,
    error = 1 and status [completed]; the failure stops nothing: every
    other candidate is on file afterwards, the failed one is not. *)
Theorem RunSync_partial_failure_isolation
    (c : Collaborators) (issuer : string) (window : option (GoTime * GoTime))
    (w : World) (keys : list string) (k0 : string) (err0 : AuthorityError) :
  enumerate c issuer window = inr keys ->
  NoDup keys ->
  (forall k, k ∈ keys -> docs w !! k = None) ->
  k0 ∈ keys ->
  fetchArtifact c k0 = inl err0 ->
  (forall k, k ∈ keys -> k <> k0 -> exists b, fetchArtifact c k = inr b) ->
  (forall p, artifact_io_ok c p = true) ->
  (forall k, document_io_ok c k = true) ->
  let r := RunSync c issuer window w in
  NFesFound r.2 = Z.of_nat (length keys) - 1 /\
  NFesError r.2 = 1 /\
  jStatus r.2 = SyncJobStatusCompleted /\
  (forall k, k ∈ keys -> k <> k0 -> is_Some (docs r.1 !! k)) /\
  docs r.1 !! k0 = None.
Proof.
  intros He Hnd Hnew Hin H0 Hok Hart Hdoc. cbv zeta.
  rewrite (RunSync_completed _ _ _ _ _ He). cbn [fst snd NFesFound NFesError jStatus].
  destruct (processAll_one_failing c k0 err0 keys (log CallEnumerate w) 0 0
              Hnd Hnew H0 Hok Hart Hdoc) as (Hf & Hr & Hs & Ho).
  assert (Hc : count_occ string_dec keys k0 = 1%nat).
  { apply (proj1 (NoDup_count_occ' string_dec keys)
                   (proj1 (NoDup_ListNoDup keys) Hnd)).
    apply list_elem_of_In, Hin. }
  rewrite Hc in Hf, Hr.
  split; [lia|]. split; [lia|]. split; [reflexivity|]. split; [exact Hs|].
  rewrite Ho by (now right). apply (Hnew k0 Hin).
Qed.

Lemma RunSync_partial_failure_isolation_witness :
  let r := RunSync one_fetch_down issuer None empty_world in
  NFesFound r.2 = 2 /\ NFesError r.2 = 1 /\
  jStatus r.2 = SyncJobStatusCompleted /\
  is_Some (docs r.1 !! key_a) /\ docs r.1 !! key_b = None /\
  is_Some (docs r.1 !! key_c).
Proof.
  cbv zeta.
  assert (Hnd : NoDup [key_a; key_b; key_c]).
  { repeat constructor; intros H; in_calls H; discriminate. }
  assert (Hok : forall k, k ∈ [key_a; key_b; key_c] -> k <> key_b ->
                          exists b, fetchArtifact one_fetch_down k = inr b).
  { intros k H Hne. in_calls H; subst k; try contradiction; eexists; reflexivity. }
  destruct (RunSync_partial_failure_isolation one_fetch_down issuer None empty_world
              [key_a; key_b; key_c] key_b (TransportError "timeout")
              eq_refl Hnd (fun k _ => lookup_empty k)
              ltac:(right; left) eq_refl Hok (fun _ => eq_refl) (fun _ => eq_refl))
    as (Hf & He & Hs & Hd & Hb).
  split; [exact Hf|]. split; [exact He|]. split; [exact Hs|].
  split; [apply Hd; [left | discriminate]|].
  split; [exact Hb|].
  apply Hd; [right; right; left | discriminate].
Defined.

(** A retry can succeed: when the collaborators answer differently in
    the second run, a candidate whose fetch failed in the first run and
    succeeds in the second is stored by the second run. *)
Example RunSync_retry_extends_store :
  let r1 := RunSync one_fetch_down issuer None empty_world in
  let r2 := RunSync healthy issuer None r1.1 in
  enumerate one_fetch_down issuer None = enumerate healthy issuer None /\
  docs r1.1 !! key_b = None /\
  is_Some (docs r2.1 !! key_b) /\
  docs r2.1 <> docs r1.1 /\
  NFesFound r2.2 = 1.
Proof.
  cbv zeta. split; [reflexivity|]. split; [vm_compute; reflexivity|].
  split; [eexists; vm_compute; reflexivity|].
  split; [|vm_compute; reflexivity].
  intros H. apply (f_equal (fun m : gmap string NFe => m !! key_b)) in H.
  vm_compute in H. discriminate.
Qed.

(** Two runs over the same candidate key set, the collaborators of the
    second run answering as they like: every record on file after the
    first run is kept as it is, no fetch and no insert is issued for a
    key on file, and the found counter is exactly the number of records
    the second run adds. *)
Lemma RunSync_second_run_keeps_records
    (c1 c2 : Collaborators) (issuer : string)
    (window : option (GoTime * GoTime)) (w : World) (keys : list string) :
  enumerate c1 issuer window = inr keys ->
  enumerate c2 issuer window = inr keys ->
  let r1 := RunSync c1 issuer window w in
  let r2 := RunSync c2 issuer window r1.1 in
  (forall k d, docs r1.1 !! k = Some d -> docs r2.1 !! k = Some d) /\
  Z.of_nat (size (docs r2.1)) = Z.of_nat (size (docs r1.1)) + NFesFound r2.2 /\
  (exists new,
     calls r2.1 = (new ++ calls r1.1)%list /\
     forall k, is_Some (docs r1.1 !! k) ->
               (CallFetch k ∉ new) /\ (CallInsert k ∉ new)) /\
  ((forall k, k ∈ keys ->
      is_Some (docs r1.1 !! k) \/ exists err, fetchArtifact c2 k = inl err) ->
   docs r2.1 = docs r1.1 /\
   NFesFound r2.2 = 0 /\
   jStatus r2.2 = SyncJobStatusCompleted).
Proof.
  intros He1 He2. cbv zeta.
  set (w1 := (RunSync c1 issuer window w).1).
  rewrite (RunSync_completed c2 issuer window w1 keys He2).
  cbn [fst snd NFesFound jStatus].
  destruct (processAll_spec c2 keys (log CallEnumerate w1) 0 0)
    as (Hmono & Hsize & _ & new & Hcalls & _ & Hfresh).
  change (docs (log CallEnumerate w1)) with (docs w1) in Hmono, Hsize, Hfresh.
  split; [exact Hmono|]. split; [lia|].
  split.
  - exists (new ++ [CallEnumerate])%list. split.
    + rewrite Hcalls. unfold log. cbn [calls]. now rewrite <- app_assoc.
    + intros k [d Hk].
      assert (Hno : CallFetch k ∈ new \/ CallInsert k ∈ new -> False).
      { intros H. apply Hfresh in H. congruence. }
      split; intros H; apply elem_of_app in H as [H|H];
        try (apply Hno; tauto); in_calls H; discriminate.
  - intros Hall.
    destruct (processAll_noop c2 keys (log CallEnumerate w1) 0 0 Hall)
      as (Hd & _ & Hf).
    split; [exact Hd|]. split; [exact Hf | reflexivity].
Qed.



End SyncClaims.

(** ** The List operation *)

Section ListClaims.
Import Domain Repository Service Samples.

#[local] Instance newer_first_transitive : Transitive newer_first.
Proof. intros a b d. unfold newer_first. lia. Qed.

#[local] Instance newer_first_total : Total newer_first.
Proof. intros a b. unfold newer_first. lia. Qed.

Lemma StronglySorted_page {A} (R : relation A) (l : list A) (n m : nat) :
  StronglySorted R l -> StronglySorted R (take n (drop m l)).
Proof.
  intros H. rewrite <- (take_drop m l) in H.
  apply StronglySorted_app_1_r in H.
  rewrite <- (take_drop n (drop m l)) in H.
  apply StronglySorted_app_1_l in H. exact H.
Qed.

Lemma StronglySorted_lookup_lt {A} (R : relation A) (l : list A) :
  StronglySorted R l ->
  forall i j x y, (i < j)%nat -> l !! i = Some x -> l !! j = Some y -> R x y.
Proof.
  induction 1 as [|a l Hl IH Ha]; intros i j x y Hij Hi Hj.
  - destruct i; discriminate.
  - destruct j as [|j]; [lia|]. cbn in Hj. destruct i as [|i].
    + cbn in Hi. injection Hi as <-.
      rewrite Forall_forall in Ha. apply Ha.
      apply list_elem_of_lookup. eauto.
    + cbn in Hi. apply (IH i j); [lia | assumption | assumption].
Qed.

Lemma FindByFilter_spec (f : NFeFilter) (store : gmap string NFe) :
  StronglySorted newer_first (FindByFilter f store).1 /\
  (forall d, d ∈ (FindByFilter f store).1 ->
             matches f d = true /\ exists k, store !! k = Some d) /\
  (FindByFilter f store).2 = Z.of_nat (length (matching f store)).
Proof.
  unfold FindByFilter. cbn [fst snd]. split; [|split; [|reflexivity]].
  - apply StronglySorted_page, StronglySorted_merge_sort; apply _.
  - intros d Hd. apply subseteq_take, subseteq_drop in Hd.
    rewrite merge_sort_Permutation in Hd. unfold matching in Hd.
    apply list_elem_of_filter in Hd as [Hm Hd]. split; [exact Hm|].
    apply list_elem_of_fmap in Hd as ([k d'] & -> & Hd).
    apply elem_of_map_to_list in Hd. eauto.
Qed.

(** A filter that fails validation is answered with the validation error
    whatever the store holds: the store is not read. *)
Lemma ListNFes_validation_precedes_store (f : NFeFilter) (err : DomainError) :
  (Validate f).2 = Some err ->
  forall store, ListNFes store f = inl err.
Proof.
  intros H store. unfold ListNFes.
  destruct (Validate f) as [f' [e|]]; cbn in H; [|discriminate].
  injection H as ->. reflexivity.
Qed.

(** C7. List ordering: for every stored document set and every filter
    that passes validation, the documents the List operation returns
    are sorted by issuance timestamp, most recent first: a document at
    a later position of the page was issued no later than one at an
    earlier position.  The page holds stored documents only.  The store
    with documents dated 2025-01-01, 2025-06-01 and 2025-12-01 is the
    witness. *)
Theorem ListNFes_ordered_by_issuance_desc
    (store : gmap string NFe) (f : NFeFilter) (resp : NFePaginatedResponse) :
  ListNFes store f = inr resp ->
  StronglySorted newer_first (Data resp) /\
  (forall i j di dj,
     (i < j)%nat -> Data resp !! i = Some di -> Data resp !! j = Some dj ->
     unix_key (DataEmissao dj) <= unix_key (DataEmissao di)) /\
  (forall d, d ∈ Data resp -> exists k, store !! k = Some d).
Proof.
  unfold ListNFes. destruct (Validate f) as [f' [err|]]; [discriminate|].
  destruct (FindByFilter_spec f' store) as (Hs & Hin & _).
  destruct (FindByFilter f' store) as [page total]. cbn [fst] in *.
  intros [= <-]. cbn [Data].
  split; [exact Hs|]. split.
  - intros i j di dj Hij Hi Hj.
    apply (StronglySorted_lookup_lt newer_first page Hs i j di dj Hij Hi Hj).
  - intros d Hd. apply Hin, Hd.
Qed.

Lemma ListNFes_ordered_by_issuance_desc_witness :
  exists resp,
    ListNFes year_store full_year = inr resp /\
    DataEmissao <$> Data resp
    = [civil_date 2025 12 1; civil_date 2025 6 1; civil_date 2025 1 1] /\
    Pag resp = MkPagination 1 20 3 /\
    StronglySorted newer_first (Data resp).
Proof.
  destruct (ListNFes year_store full_year) as [err|resp] eqn:H.
  { vm_compute in H. discriminate. }
  exists resp. split; [reflexivity|].
  pose proof (ListNFes_ordered_by_issuance_desc year_store full_year resp H)
    as (Hs & _ & _).
  vm_compute in H. injection H as <-.
  split; [reflexivity|]. split; [reflexivity | exact Hs].
Defined.

End ListClaims.


(** ** Further properties of the filter *)

Section FilterExtras.
Import Domain.

Lemma Validate_fCNPJEmitente (f : NFeFilter) :
  fCNPJEmitente (Validate f).1 = fCNPJEmitente f.
Proof. unfold Validate, set_Page, set_Limit. case_branches. Qed.

Lemma Validate_normal_form (g : NFeFilter) :
  1 <= Page g -> 1 <= Limit g <= 100 -> (Validate g).1 = g.
Proof.
  intros Hp Hl. unfold Validate.
  destruct (Z.ltb_spec (Page g) 1); [lia|].
  destruct (Z.ltb_spec (Limit g) 1); [lia|].
  destruct (Z.ltb_spec 100 (Limit g)); [lia|].
  cbn [orb]. case_branches.
Qed.

Lemma Validate_bounds (f : NFeFilter) :
  1 <= Page (Validate f).1 /\ 1 <= Limit (Validate f).1 <= 100.
Proof.
  rewrite Validate_Page, Validate_Limit.
  destruct (Z.ltb_spec (Page f) 1), (Z.ltb_spec (Limit f) 1),
    (Z.ltb_spec 100 (Limit f)); cbn [orb]; lia.
Qed.

Lemma GetOffset_exact (f : NFeFilter) :
  1 <= Page f -> 0 <= Limit f ->
  Page f <= GoInt.MaxInt ->
  (Page f - 1) * Limit f <= GoInt.MaxInt ->
  GetOffset f = (Page f - 1) * Limit f.
Proof.
  intros Hp Hl Hm Hfit. unfold GetOffset, GoInt.mul, GoInt.sub.
  rewrite (wrap64_id (Page f - 1)).
  - apply wrap64_id. unfold GoInt.in_range, GoInt.MinInt, GoInt.MaxInt in *.
    split; [nia | lia].
  - unfold GoInt.in_range, GoInt.MinInt, GoInt.MaxInt in *. lia.
Qed.

(** X1. [Validate] is idempotent: validating an already validated filter
    changes nothing and reports the same error. *)
Theorem Validate_idempotent (f : NFeFilter) :
  Validate (Validate f).1 = Validate f.
Proof.
  destruct (Validate_bounds f) as [Hp Hl].
  rewrite (surjective_pairing (Validate (Validate f).1)).
  rewrite (surjective_pairing (Validate f)) at 3.
  f_equal.
  - apply Validate_normal_form; assumption.
  - rewrite !Validate_error, Validate_fStatus. reflexivity.
Qed.

(** X2. [Validate] writes to [Page] and [Limit] only, and it normalizes them
    before it looks at the status: the filter is left with [Page >= 1]
    and [1 <= Limit <= 100] also when an error is returned, and the
    issuer, the status and both date bounds are never changed. *)
Theorem Validate_normalizes_before_status_check (f : NFeFilter) :
  1 <= Page (Validate f).1 /\
  1 <= Limit (Validate f).1 <= 100 /\
  fCNPJEmitente (Validate f).1 = fCNPJEmitente f /\
  fStatus (Validate f).1 = fStatus f /\
  StartDate (Validate f).1 = StartDate f /\
  EndDate (Validate f).1 = EndDate f.
Proof.
  destruct (Validate_bounds f) as [Hp Hl].
  destruct (Validate_dates f) as [Hs He].
  repeat split; try assumption; try apply Hl.
  - apply Validate_fCNPJEmitente.
  - apply Validate_fStatus.
Qed.

Example Validate_normalizes_on_error :
  Validate (MkFilter "x" "bogus" None None (-3) 1000)
  = (MkFilter "x" "bogus" None None 1 20, Some ErrInvalidStatus).
Proof. reflexivity. Qed.

(** X3. A page number below 1 (absent, zero or negative) selects the first
    page: after [Validate] the offset is 0. *)
Theorem GetOffset_first_page_when_page_below_1 (f : NFeFilter) :
  Page f < 1 -> GetOffset (Validate f).1 = 0.
Proof.
  intros Hp. destruct (Validate_bounds f) as [_ Hl].
  assert (HP : Page (Validate f).1 = 1).
  { rewrite Validate_Page. destruct (Z.ltb_spec (Page f) 1); [reflexivity | lia]. }
  rewrite GetOffset_exact; rewrite ?HP; unfold GoInt.MaxInt; lia.
Qed.

Lemma GetOffset_first_page_when_page_below_1_witness :
  GetOffset (Validate (MkFilter "" "" None None (-7) 50)).1 = 0.
Proof.
  apply (GetOffset_first_page_when_page_below_1
           (MkFilter "" "" None None (-7) 50)). reflexivity.
Defined.

(** X4. Pages tile the result rows: with a page size in [1,100], every row
    index [n >= 0] (short of the [int] bound) lies in the window
    [[GetOffset, GetOffset + Limit)] of page [n / Limit + 1] and of no
    other page; consecutive pages neither overlap nor leave a gap. *)
Theorem GetOffset_pages_tile_rows (f : NFeFilter) (n p : Z) :
  1 <= Limit f <= 100 ->
  0 <= n -> n + Limit f <= GoInt.MaxInt ->
  1 <= p -> (p - 1) * Limit f <= GoInt.MaxInt -> p <= GoInt.MaxInt ->
  (GetOffset (set_Page f p) <= n < GetOffset (set_Page f p) + Limit f
   <-> p = n / Limit f + 1).
Proof.
  intros Hl Hn Hnb Hp Hfit Hpm.
  rewrite (GetOffset_exact (set_Page f p)); cbn [Page Limit set_Page]; try lia.
  pose proof (Z.div_mod n (Limit f) ltac:(lia)) as Hdm.
  pose proof (Z.mod_pos_bound n (Limit f) ltac:(lia)) as Hmb.
  split.
  - intros [Hlo Hhi].
    assert (Hq : n / Limit f = p - 1).
    { symmetry. apply (Z.div_unique_pos n (Limit f) (p - 1) (n - (p - 1) * Limit f));
        [lia | lia]. }
    lia.
  - intros ->. nia.
Qed.

Lemma GetOffset_pages_tile_rows_witness :
  GetOffset (set_Page (MkFilter "" "" None None 1 20) 3) <= 57
    < GetOffset (set_Page (MkFilter "" "" None None 1 20) 3) + 20.
Proof.
  apply (GetOffset_pages_tile_rows (MkFilter "" "" None None 1 20) 57 3);
    cbn; unfold GoInt.MaxInt; try lia. reflexivity.
Defined.

End FilterExtras.

(** ** The HTTP endpoints *)

Section EndpointFacts.
Import Domain GoStd Repository GoErr Http NFeHandler.
Context (sentinel_text : DomainError -> string).

Lemma sendJSON_fresh (h : gmap string string) (status : Z) (data : Encoded) :
  sendJSON (MkWriter h None []) status data
  = MkWriter (<["Content-Type" := "application/json"]> h)
      (Some (status, <["Content-Type" := "application/json"]> h))
      (if encodes data then [JSONChunk data] else []).
Proof. unfold sendJSON. destruct (encodes data); reflexivity. Qed.

Lemma sendError_fresh (h : gmap string string) (status : Z) (message : string)
    (err : option GoError) :
  sendError sentinel_text (MkWriter h None []) status message err
  = MkWriter (<["Content-Type" := "application/json"]> h)
      (Some (status, <["Content-Type" := "application/json"]> h))
      [JSONChunk (EncError
         (MkErrorResponse (from_option (ErrorText sentinel_text) "" err) message))].
Proof. destruct err; reflexivity. Qed.

Lemma complete_sendJSON_ok h data :
  (forall errResp, data <> EncError errResp) ->
  complete_response (sendJSON (MkWriter h None []) StatusOK data).
Proof.
  intros Hd. rewrite sendJSON_fresh. eexists _, _.
  split; [reflexivity|]. split; [left|]. cbn [chunks].
  destruct (encodes data) eqn:He.
  - split; [apply lookup_insert_eq|]. split; [exact He|].
    split; [intros H; contradiction | intros [e H]; destruct (Hd e H)].
  - split; [reflexivity | apply lookup_insert_eq].
Qed.

Lemma complete_sendError h status message err :
  status ∈ [StatusBadRequest; StatusNotFound; StatusInternalServerError] ->
  complete_response (sendError sentinel_text (MkWriter h None []) status message err).
Proof.
  intros Hs. rewrite sendError_fresh. eexists _, _.
  split; [reflexivity|].
  split; [in_calls Hs; subst status; repeat constructor|].
  cbn [chunks]. split; [apply lookup_insert_eq|]. split; [reflexivity|].
  split; [eauto|]. intros _. in_calls Hs; subst status; discriminate.
Qed.

Lemma nfe_encodes_finite (d : NFe) :
  nfe_encodes d = true -> PrimFloat.is_finite (ValorTotal d) = true.
Proof.
  unfold nfe_encodes. intros H.
  repeat (apply andb_true_iff in H; destruct H as [H _]). exact H.
Qed.

Lemma is_sentinel_not_found (err : GoError) :
  is_sentinel ErrNFeNotFound err = true <-> err = Sentinel ErrNFeNotFound.
Proof.
  split; [|intros ->; reflexivity].
  destruct err as [[]| |]; cbn; congruence.
Qed.

End EndpointFacts.

Section EndpointExtras.
Import Domain GoStd Repository GoErr Http NFeHandler.
Context (sentinel_text : DomainError -> string).
Context (time_parse_error : string -> GoError).

(** X5. The statistics endpoint answers 400 exactly when one of
    [start_date] and [end_date] is missing or does not parse as
    YYYY-MM-DD; a missing parameter is reported first, with an empty
    error text; in all these cases the service is not consulted.  When
    both dates parse, the service is consulted with them, in whatever
    order they are, and the answer is 500, or 200 with the statistics as
    body; the 200 has no body when the statistics cannot be encoded. *)
Theorem GetStats_rejects_missing_or_malformed_dates
    (service : GoTime -> GoTime -> GoError + NFeStats)
    (q : gmap string (list string)) (h : gmap string string) :
  let w := GetStats sentinel_text time_parse_error service q (MkWriter h None []) in
  (statusOf w = Some StatusBadRequest <->
     ParseDate (Get q "start_date") = None \/ ParseDate (Get q "end_date") = None) /\
  (Get q "start_date" = "" \/ Get q "end_date" = "" ->
     chunks w = [JSONChunk (EncError
                   (MkErrorResponse "" "start_date e end_date são obrigatórios"))]) /\
  (statusOf w = Some StatusBadRequest ->
     forall service',
       GetStats sentinel_text time_parse_error service' q (MkWriter h None []) = w) /\
  (forall s e,
     ParseDate (Get q "start_date") = Some s ->
     ParseDate (Get q "end_date") = Some e ->
     match service s e with
     | inr stats =>
         statusOf w = Some StatusOK /\
         chunks w = if encodes (EncStats stats)
                    then [JSONChunk (EncStats stats)] else []
     | inl err => statusOf w = Some StatusInternalServerError
     end).
Proof.
  cbv zeta. unfold GetStats.
  destruct (String.eqb_spec (Get q "start_date") "") as [Hs|Hs];
    [|destruct (String.eqb_spec (Get q "end_date") "") as [He|He]]; cbn [orb].
  1, 2: rewrite sendError_fresh; cbn; split;
    [ split; [intros _|reflexivity];
      first [ left; rewrite Hs; reflexivity | right; rewrite He; reflexivity ] |];
    (split; [reflexivity|]); (split; [reflexivity|]);
    intros s e H1 H2;
    first [ rewrite Hs in H1; discriminate | rewrite He in H2; discriminate ].
  destruct (ParseDate (Get q "start_date")) as [s|] eqn:Hps;
    [destruct (ParseDate (Get q "end_date")) as [e|] eqn:Hpe|].
  - destruct (service s e) as [err|stats] eqn:Hsv.
    + rewrite sendError_fresh. cbn.
      split; [split; [discriminate | intros [?|?]; discriminate]|].
      split; [intros [?|?]; contradiction|].
      split; [discriminate|].
      intros s' e' [= <-] [= <-]. rewrite Hsv. reflexivity.
    + rewrite sendJSON_fresh. cbn [statusOf wrote chunks fmap option_fmap option_map fst].
      split; [split; [discriminate | intros [?|?]; discriminate]|].
      split; [intros [?|?]; contradiction|].
      split; [discriminate|].
      intros s' e' [= <-] [= <-]. rewrite Hsv. split; reflexivity.
  - rewrite sendError_fresh. cbn.
    split; [split; [auto | reflexivity]|].
    split; [intros [?|?]; contradiction|].
    split; [reflexivity | intros s' e' _ H; discriminate].
  - rewrite sendError_fresh. cbn.
    split; [split; [auto | reflexivity]|].
    split; [intros [?|?]; contradiction|].
    split; [reflexivity | intros s' e' H; discriminate].
Qed.

(** X6. The two endpoints disagree on a bad date: a [start_date] that does
    not parse makes the statistics endpoint answer 400, while the list
    endpoint drops the bound and consults its service as if no start date
    had been given, answering 200 or 500. *)
Theorem GetStats_rejects_the_date_ListNFes_drops
    (list_service : NFeFilter -> GoError + NFePaginatedResponse)
    (stats_service : GoTime -> GoTime -> GoError + NFeStats)
    (q : gmap string (list string)) (h : gmap string string) :
  ParseDate (Get q "start_date") = None ->
  statusOf (GetStats sentinel_text time_parse_error stats_service q (MkWriter h None []))
    = Some StatusBadRequest /\
  StartDate (Handler.parseFilter q) = None /\
  statusOf (ListNFes sentinel_text list_service q (MkWriter h None []))
    = Some (match list_service (Handler.parseFilter q) with
            | inl _ => StatusInternalServerError
            | inr _ => StatusOK
            end).
Proof.
  intros Hp. split; [|split].
  - unfold GetStats.
    destruct (String.eqb (Get q "start_date") "" || String.eqb (Get q "end_date") "");
      [rewrite sendError_fresh; reflexivity|].
    rewrite Hp, sendError_fresh. reflexivity.
  - rewrite parseFilter_StartDate. exact Hp.
  - unfold ListNFes. destruct (list_service (Handler.parseFilter q));
      [rewrite sendError_fresh | rewrite sendJSON_fresh]; reflexivity.
Qed.

(** X7. The document endpoint answers 404 exactly when the service
    returns the sentinel [ErrNFeNotFound] itself; any other error, an
    error that wraps the sentinel included, is a 500; a document is a
    200.  The body of the 200 is the document when it can be encoded;
    a document whose total is NaN or infinite is answered with a 200
    and no body. *)
Theorem GetNFe_not_found_only_for_the_sentinel
    (service : string -> GoError + NFe) (chave : string)
    (h : gmap string string) :
  let w := GetNFe sentinel_text service chave (MkWriter h None []) in
  (statusOf w = Some StatusNotFound <->
     service chave = inl (Sentinel ErrNFeNotFound)) /\
  (statusOf w = Some StatusInternalServerError <->
     exists err, service chave = inl err /\ err <> Sentinel ErrNFeNotFound) /\
  (forall prefix cause,
     service chave = inl (Wrapped prefix cause) ->
     statusOf w = Some StatusInternalServerError) /\
  (statusOf w = Some StatusOK <-> exists nfe, service chave = inr nfe) /\
  (forall nfe,
     service chave = inr nfe ->
     chunks w = (if encodes (EncNFe nfe) then [JSONChunk (EncNFe nfe)] else []) /\
     (PrimFloat.is_finite (ValorTotal nfe) = false -> chunks w = [])).
Proof.
  cbv zeta. unfold GetNFe. destruct (service chave) as [err|nfe].
  - destruct (is_sentinel ErrNFeNotFound err) eqn:Hs; rewrite sendError_fresh; cbn.
    + apply is_sentinel_not_found in Hs. subst err.
      split; [split; reflexivity|].
      split; [split; [discriminate | intros (e & [= <-] & Hne); contradiction]|].
      split; [intros p c H; discriminate|].
      split; [split; [discriminate | intros [n H]; discriminate]|].
      intros nfe H. discriminate.
    + assert (Hne : err <> Sentinel ErrNFeNotFound).
      { intros ->. discriminate. }
      split; [split; [discriminate | intros [= ->]; contradiction]|].
      split; [split; [eauto | reflexivity]|].
      split; [reflexivity|].
      split; [split; [discriminate | intros [n H]; discriminate]|].
      intros nfe H. discriminate.
  - rewrite sendJSON_fresh.
    cbn [statusOf wrote chunks fmap option_fmap option_map fst].
    split; [split; discriminate|].
    split; [split; [discriminate | intros (e & H & _); discriminate]|].
    split; [intros p c H; discriminate|].
    split; [split; [eauto | reflexivity]|].
    intros nfe' [= <-]. split; [reflexivity|].
    intros Hf. destruct (encodes (EncNFe nfe)) eqn:He; [|reflexivity].
    apply nfe_encodes_finite in He. congruence.
Qed.


(** X9. The list and sync endpoints know two statuses only: 200 when
    the service returns a value and 500 when it returns an error,
    whatever the error; a validation error of the filter is reported as
    a 500 with the error's text, never as a 400.  The body of a 200 is
    the service's value when it can be encoded, and is missing when it
    cannot. *)
Theorem ListNFes_and_SyncNFes_answer_200_or_500
    (list_service : NFeFilter -> GoError + NFePaginatedResponse)
    (sync_service : GoError + SyncJob)
    (q : gmap string (list string)) (h : gmap string string) :
  let wl := ListNFes sentinel_text list_service q (MkWriter h None []) in
  let ws := SyncNFes sentinel_text sync_service (MkWriter h None []) in
  (statusOf wl = Some StatusInternalServerError <->
     exists err, list_service (Handler.parseFilter q) = inl err) /\
  (statusOf wl = Some StatusOK <->
     exists response, list_service (Handler.parseFilter q) = inr response) /\
  (forall response,
     Handler.ListNFes list_service q = Handler.RespOK response <->
     list_service (Handler.parseFilter q) = inr response) /\
  (forall response,
     list_service (Handler.parseFilter q) = inr response ->
     chunks wl = if encodes (EncPage response)
                 then [JSONChunk (EncPage response)] else []) /\
  (list_service (Handler.parseFilter q) = inl (Sentinel ErrInvalidStatus) ->
     statusOf wl = Some StatusInternalServerError /\
     chunks wl = [JSONChunk (EncError
                    (MkErrorResponse (sentinel_text ErrInvalidStatus)
                       "Erro ao listar NFes"))]) /\
  (statusOf ws = Some StatusInternalServerError <->
     exists err, sync_service = inl err) /\
  (statusOf ws = Some StatusOK <-> exists job, sync_service = inr job) /\
  (forall job,
     sync_service = inr job ->
     chunks ws = if encodes (EncSyncJob job)
                 then [JSONChunk (EncSyncJob job)] else []).
Proof.
  cbv zeta. unfold ListNFes, SyncNFes, Handler.ListNFes.
  assert (Hl : forall A (x : GoError + A) (enc : A -> Encoded) msg,
            let w := match x with
                     | inl err => sendError sentinel_text (MkWriter h None [])
                                    StatusInternalServerError msg (Some err)
                     | inr v => sendJSON (MkWriter h None []) StatusOK (enc v)
                     end in
            (statusOf w = Some StatusInternalServerError <-> exists err, x = inl err) /\
            (statusOf w = Some StatusOK <-> exists v, x = inr v) /\
            (forall v, x = inr v ->
               chunks w = if encodes (enc v) then [JSONChunk (enc v)] else [])).
  { intros A x enc msg. cbv zeta. destruct x as [err|v];
      [rewrite sendError_fresh | rewrite sendJSON_fresh];
      cbn [statusOf wrote chunks fmap option_fmap option_map fst].
    - split; [split; eauto|].
      split; [split; [discriminate | intros [v H]; discriminate]|].
      intros v H. discriminate.
    - split; [split; [discriminate | intros [e H]; discriminate]|].
      split; [split; eauto|].
      intros v' [= <-]. reflexivity. }
  destruct (Hl _ (list_service (Handler.parseFilter q)) EncPage "Erro ao listar NFes")
    as (L1 & L2 & L3).
  destruct (Hl _ sync_service EncSyncJob "Erro ao sincronizar NFes")
    as (S1 & S2 & S3).
  split; [exact L1|]. split; [exact L2|].
  split.
  { intros r. destruct (list_service (Handler.parseFilter q)) as [err|r'].
    - split; discriminate.
    - split; intros [= ->]; reflexivity. }
  split; [exact L3|].
  split.
  { intros H. rewrite H, sendError_fresh. split; reflexivity. }
  split; [exact S1|]. split; [exact S2 | exact S3].
Qed.

(** X10. Every endpoint sends one well-formed response: a single status
    out of 200, 400, 404 and 500, a [Content-Type], and at most one body.
    Every status other than 200 carries an [ErrorResponse]; a 200 carries
    the value as JSON, the file as XML, or, when the value cannot be
    encoded, no body at all. *)
Theorem endpoints_send_one_complete_response
    (sync_service : GoError + SyncJob)
    (list_service : NFeFilter -> GoError + NFePaginatedResponse)
    (nfe_service : string -> GoError + NFe)
    (path_service : string -> GoError + string)
    (stats_service : GoTime -> GoTime -> GoError + NFeStats)
    (readFile : string -> GoError + Bytes)
    (q : gmap string (list string)) (chave : string) (h : gmap string string) :
  complete_response (SyncNFes sentinel_text sync_service (MkWriter h None [])) /\
  complete_response (ListNFes sentinel_text list_service q (MkWriter h None [])) /\
  complete_response (GetNFe sentinel_text nfe_service chave (MkWriter h None [])) /\
  complete_response
    (DownloadXML sentinel_text path_service readFile chave (MkWriter h None [])) /\
  complete_response
    (GetStats sentinel_text time_parse_error stats_service q (MkWriter h None [])).
Proof.
  pose proof (complete_sendJSON_ok h) as Hok.
  assert (H400 : StatusBadRequest ∈
            [StatusBadRequest; StatusNotFound; StatusInternalServerError]) by left.
  assert (H404 : StatusNotFound ∈
            [StatusBadRequest; StatusNotFound; StatusInternalServerError])
    by (right; left).
  assert (H500 : StatusInternalServerError ∈
            [StatusBadRequest; StatusNotFound; StatusInternalServerError])
    by (right; right; left).
  split; [|split; [|split; [|split]]].
  - unfold SyncNFes. destruct sync_service;
      [apply complete_sendError, H500 | apply Hok; intros e He; discriminate].
  - unfold ListNFes. destruct (list_service _);
      [apply complete_sendError, H500 | apply Hok; intros e He; discriminate].
  - unfold GetNFe. destruct (nfe_service _);
      [destruct (is_sentinel _ _); apply complete_sendError; assumption
      | apply Hok; intros e He; discriminate].
  - unfold DownloadXML. destruct (path_service _) as [err|p];
      [destruct (is_sentinel _ _); apply complete_sendError; assumption|].
    destruct (readFile p) as [err|b]; [apply complete_sendError, H500|].
    eexists _, _. split; [reflexivity|]. split; [left|].
    cbn [hdr wrote chunks HeaderSet WriteHeader WriteChunk app].
    split; [|reflexivity].
    rewrite lookup_insert_ne by discriminate.
    rewrite lookup_insert_ne by discriminate. apply lookup_insert_eq.
  - unfold GetStats. destruct (_ || _); [apply complete_sendError, H400|].
    destruct (ParseDate _); [|apply complete_sendError, H400].
    destruct (ParseDate _); [|apply complete_sendError, H400].
    destruct (stats_service _ _);
      [apply complete_sendError, H500 | apply Hok; intros e He; discriminate].
Qed.

End EndpointExtras.

(** ** Database pool and certificate loading *)

Section StartupExtras.
Import Domain GoErr Repository Database Certificate EndpointSamples.

Lemma stage_texts_differ (txt : DomainError -> string) (a b : GoError) :
  ErrorText txt (Wrapped "failed to connect to database: " a)
  <> ErrorText txt (Wrapped "failed to ping database: " b) /\
  ErrorText txt (Wrapped "failed to read certificate file: " a)
  <> ErrorText txt (Wrapped "failed to decode certificate: " b).
Proof.
  split; intros H; cbn [ErrorText] in H;
    rewrite !string_app_cons in H; discriminate.
Qed.

Lemma quot5_nonpos (n : Z) : n < 5 -> Z.quot n 5 <= 0.
Proof.
  intros H. destruct (Z.le_gt_cases 0 n) as [Hn|Hn].
  - rewrite Z.quot_small; lia.
  - rewrite <- (Z.opp_involutive n), Z.quot_opp_l by lia.
    pose proof (Z.quot_pos (- n) 5 ltac:(lia) ltac:(lia)). lia.
Qed.

(** X11. The pool [NewPostgresConnection] returns: the open limit is
    [maxConnections] (none when it is zero or negative); the number of
    idle connections retained is [maxConnections / 5], so it is zero
    whenever [maxConnections] is below 5 and never exceeds the open limit;
    idle connections are dropped after ten minutes, before the one-hour
    lifetime; the pool returned is one whose ping succeeded. *)
Theorem NewPostgresConnection_pool_settings
    (connect : string -> GoError + DB) (ping : DB -> option GoError)
    (dsn : string) (maxConnections : Z) (db : DB) :
  NewPostgresConnection connect ping dsn maxConnections = inr db ->
  maxOpen db = Z.max maxConnections 0 /\
  maxIdle db = Z.max (maxConnections / 5) 0 /\
  (maxConnections < 5 -> maxIdle db = 0) /\
  (5 <= maxConnections ->
     1 <= maxIdle db <= maxOpen db /\
     5 * maxIdle db <= maxConnections < 5 * maxIdle db + 5) /\
  connMaxLifetime db = Hour /\
  connMaxIdleTime db = 10 * Minute /\
  connMaxIdleTime db < connMaxLifetime db /\
  ping db = None /\
  exists db0, connect dsn = inr db0 /\ db_dsn db = db_dsn db0.
Proof.
  unfold NewPostgresConnection. destruct (connect dsn) as [err|db0]; [discriminate|].
  match goal with |- context [ping ?d] => set (db1 := d) end.
  destruct (ping db1) as [err|] eqn:Hping; [discriminate|].
  intros [= <-].
  assert (Hopen : maxOpen db1 = Z.max maxConnections 0).
  { cbn. destruct (Z.ltb_spec maxConnections 0); lia. }
  assert (Hidle : maxIdle db1 = Z.max (maxConnections / 5) 0).
  { cbn. destruct (Z.ltb_spec maxConnections 0) as [Hn|Hn].
    - pose proof (quot5_nonpos maxConnections ltac:(lia)) as Hq.
      pose proof (Z.div_lt_upper_bound maxConnections 5 0 ltac:(lia) ltac:(lia)).
      destruct (Z.ltb_spec 0 (Z.quot maxConnections 5)); [lia|].
      cbn. lia.
    - rewrite Z.quot_div_nonneg by lia.
      pose proof (Z.div_pos maxConnections 5 Hn ltac:(lia)) as Hd.
      pose proof (Z.mul_div_le maxConnections 5 ltac:(lia)) as Hm.
      destruct (Z.ltb_spec 0 (maxConnections / 5)) as [Hp|Hp].
      + destruct (Z.ltb_spec 0 maxConnections); cbn [andb]; [|lia].
        destruct (Z.ltb_spec maxConnections (maxConnections / 5)); lia.
      + repeat match goal with
               | |- context [?a <? ?b] => destruct (Z.ltb_spec a b)
               end; cbn [andb]; lia. }
  pose proof (Z.div_mod maxConnections 5 ltac:(lia)) as Hdm.
  pose proof (Z.mod_pos_bound maxConnections 5 ltac:(lia)) as Hmb.
  split; [exact Hopen|]. split; [exact Hidle|].
  split; [intros Hlt; rewrite Hidle; lia|].
  split; [intros Hge; rewrite Hidle, Hopen; lia|].
  split; [reflexivity|]. split; [reflexivity|].
  split; [vm_compute; reflexivity|].
  split; [exact Hping|]. exists db0. split; reflexivity.
Qed.

Lemma NewPostgresConnection_pool_settings_witness :
  exists db,
    NewPostgresConnection reachable alive "postgres://nfe" 3 = inr db /\
    maxOpen db = 3 /\ maxIdle db = 0.
Proof.
  exists (MkDB "postgres://nfe" 3 0 Hour (10 * Minute)).
  assert (H : NewPostgresConnection reachable alive "postgres://nfe" 3
              = inr (MkDB "postgres://nfe" 3 0 Hour (10 * Minute)))
    by reflexivity.
  split; [exact H|].
  destruct (NewPostgresConnection_pool_settings _ _ _ _ _ H)
    as (Ho & _ & Hi & _).
  split; [exact Ho | apply Hi; lia].
Defined.

(** X12. When [NewPostgresConnection] fails, the error wraps its cause, which
    is the error of the connection attempt or of the ping; the ping is
    not attempted when the connection fails; and the texts of the two
    failures can never be confused. *)
Theorem NewPostgresConnection_failure_wraps_cause
    (connect : string -> GoError + DB) (ping : DB -> option GoError)
    (dsn : string) (maxConnections : Z) :
  (forall err,
     NewPostgresConnection connect ping dsn maxConnections = inl err ->
     exists cause,
       Unwrap err = Some cause /\
       (connect dsn = inl cause \/
        exists db0 db, connect dsn = inr db0 /\ ping db = Some cause /\
                       db_dsn db = db_dsn db0 /\
                       maxOpen db = Z.max maxConnections 0)) /\
  (forall cause,
     connect dsn = inl cause ->
     forall ping',
       NewPostgresConnection connect ping' dsn maxConnections
       = inl (Wrapped "failed to connect to database: " cause)) /\
  (forall txt a b,
     ErrorText txt (Wrapped "failed to connect to database: " a)
     <> ErrorText txt (Wrapped "failed to ping database: " b)).
Proof.
  unfold NewPostgresConnection. split; [|split].
  - intros err. destruct (connect dsn) as [e|db0].
    + intros [= <-]. exists e. split; [reflexivity | left; reflexivity].
    + match goal with |- context [ping ?d] => set (db1 := d) end.
      destruct (ping db1) as [e|] eqn:Hp; [|discriminate].
      intros [= <-]. exists e. split; [reflexivity|]. right.
      exists db0, db1. split; [reflexivity|]. split; [exact Hp|].
      split; [reflexivity|]. cbn. destruct (Z.ltb_spec maxConnections 0); lia.
  - intros cause ->. reflexivity.
  - intros txt a b. apply stage_texts_differ.
Qed.

(** X13. [LoadCertificate] succeeds exactly when the file is read and decoded;
    the certificate it returns has a chain of one entry, the DER bytes of
    its leaf, and the decoded key.  The password and the decoder play no
    part when the file cannot be read; a failure wraps its cause, and the
    text of a read failure can never be confused with that of a decode
    failure. *)
Theorem LoadCertificate_chain_and_failures {K : Type}
    (readFile : string -> GoError + Bytes)
    (decode : Bytes -> string -> GoError + (K * X509))
    (certPath password : string) :
  (forall cert,
     LoadCertificate readFile decode certPath password = inr cert ->
     exists certData leaf,
       readFile certPath = inr certData /\
       decode certData password = inr (PrivateKey cert, leaf) /\
       Leaf cert = Some leaf /\ Chain cert = [Raw leaf]) /\
  (forall certData key leaf,
     readFile certPath = inr certData ->
     decode certData password = inr (key, leaf) ->
     exists cert, LoadCertificate readFile decode certPath password = inr cert) /\
  (forall cause,
     readFile certPath = inl cause ->
     forall (decode' : Bytes -> string -> GoError + (K * X509)) password',
       LoadCertificate readFile decode' certPath password'
       = inl (Wrapped "failed to read certificate file: " cause)) /\
  (forall err,
     LoadCertificate readFile decode certPath password = inl err ->
     exists cause,
       Unwrap err = Some cause /\
       (readFile certPath = inl cause \/
        exists certData,
          readFile certPath = inr certData /\
          decode certData password = inl cause)) /\
  (forall txt a b,
     ErrorText txt (Wrapped "failed to read certificate file: " a)
     <> ErrorText txt (Wrapped "failed to decode certificate: " b)).
Proof.
  unfold LoadCertificate. split; [|split; [|split; [|split]]].
  - intros cert. destruct (readFile certPath) as [e|data]; [discriminate|].
    destruct (decode data password) as [e|[key leaf]] eqn:Hd; [discriminate|].
    intros [= <-]. exists data, leaf. split; [reflexivity|].
    split; [exact Hd|]. split; reflexivity.
  - intros data key leaf -> ->. eexists. reflexivity.
  - intros cause -> decode' password'. reflexivity.
  - intros err. destruct (readFile certPath) as [e|data].
    + intros [= <-]. exists e. split; [reflexivity | left; reflexivity].
    + destruct (decode data password) as [e|[key leaf]] eqn:Hd; [|discriminate].
      intros [= <-]. exists e. split; [reflexivity|]. right. eauto.
  - intros txt a b. apply stage_texts_differ.
Qed.

End StartupExtras.

(** ** The endpoints on sample requests *)

Section EndpointExamples.
Import Domain GoStd Repository GoErr Http NFeHandler EndpointSamples.

Lemma GetStats_rejects_the_date_ListNFes_drops_witness :
  let q : gmap string (list string) :=
    {[ "start_date" := ["01/02/2025"]; "end_date" := ["2025-12-31"] ]} in
  statusOf (GetStats sample_texts sample_parse_error stats_service q newWriter)
    = Some 400 /\
  statusOf (ListNFes sample_texts list_service q newWriter) = Some 200.
Proof.
  cbv zeta.
  assert (Hp : ParseDate
                 (Get ({[ "start_date" := ["01/02/2025"];
                          "end_date" := ["2025-12-31"] ]}
                       : gmap string (list string)) "start_date") = None)
    by (vm_compute; reflexivity).
  destruct (GetStats_rejects_the_date_ListNFes_drops
              sample_texts sample_parse_error list_service stats_service
              _ ∅ Hp) as (Hs & _ & Hl).
  split; [exact Hs | exact Hl].
Defined.

Example GetStats_unencodable_total :
  let q : gmap string (list string) :=
    {[ "start_date" := ["2025-01-01"]; "end_date" := ["2025-12-31"] ]} in
  let w := GetStats sample_texts sample_parse_error nan_stats_service q newWriter in
  statusOf w = Some 200 /\ chunks w = [].
Proof. cbv zeta. split; vm_compute; reflexivity. Qed.

Example GetStats_encodable_total :
  let q : gmap string (list string) :=
    {[ "start_date" := ["2025-01-01"]; "end_date" := ["2025-12-31"] ]} in
  let w := GetStats sample_texts sample_parse_error stats_service q newWriter in
  statusOf w = Some 200 /\ length (chunks w) = 1%nat.
Proof. cbv zeta. split; vm_compute; reflexivity. Qed.

Example DownloadXML_known_key :
  let w := DownloadXML sample_texts path_service disk Samples.key_a newWriter in
  statusOf w = Some 200 /\
  chunks w = [RawChunk Samples.sample_artifact] /\
  sentHeader "Content-Length" w = Some "3".
Proof. cbv zeta. repeat split; vm_compute; reflexivity. Qed.

Example DownloadXML_unknown_key :
  statusOf (DownloadXML sample_texts path_service disk Samples.key_b newWriter)
  = Some 404.
Proof. vm_compute. reflexivity. Qed.

Example GetNFe_wrapped_not_found_is_500 :
  statusOf (GetNFe sample_texts
              (fun _ => inl (Wrapped "repository: " (Sentinel ErrNFeNotFound)))
              Samples.key_a newWriter)
  = Some 500.
Proof. vm_compute. reflexivity. Qed.

End EndpointExamples.
